(** * Discrete-time stochastic SIR simulator (epi_forecast_stat_mech/sir_sim.py)

    A shallow embedding of [sir_sim.py] and the properties of its four
    components: the SIR curve simulator, the observation window extractor,
    the batch orchestrator and the single-covariate beta generator.

    Modelling conventions.
    - Python/NumPy integers are [Z].  Every count the simulator produces lies
      between 0 and [pop_size] (proved below), so the 64-bit range of NumPy's
      integer arrays is not reached for any population below 2^63.
    - Python floats and [np.float64] are Rocq's primitive binary64 floats;
      products, quotients and comparisons are the IEEE operations themselves.
    - The process-wide random generator is an explicit state [rng] threaded
      through every draw.  The samplers ([scipy.stats.binom.rvs],
      [np.random.uniform]) and [np.exp] are external library functions; they
      are the fields of the class [Externals], and what is assumed about them
      is stated as a hypothesis where a proof needs it.
    - A computation is a function from the generator state to an [outcome]:
      a value with the next generator state, a raised exception, or
      [OutOfFuel] when the [while] loop of the simulator was cut after [fuel]
      iterations (the source loop has no iteration cap). *)

From Stdlib Require Import ZArith List Bool Lia.
From Stdlib Require Import Floats.
From Stdlib Require Uint63.
Import ListNotations.
Local Open Scope Z_scope.
#[local] Set Warnings "-inexact-float".

(** ** Outcomes and the generator-state monad *)

Inductive exn : Type :=
| ValueError
| IndexError
| ZeroDivisionError
| UnboundLocalError.

Inductive outcome (A : Type) : Type :=
| Ok (a : A)
| Raise (e : exn)
| OutOfFuel.

Arguments Ok {A} a.
Arguments Raise {A} e.
Arguments OutOfFuel {A}.

Class Externals : Type := {
  rng : Type;
  (** [stats.binom.rvs(n, p)] *)
  binom_rvs : Z -> float -> rng -> Z * rng;
  (** one draw of [np.random.uniform(low, high)] *)
  uniform : float -> float -> rng -> float * rng;
  (** [np.exp] on a scalar *)
  np_exp : float -> float
}.

Definition M `{Externals} (A : Type) : Type := rng -> outcome (A * rng).

Definition ret `{Externals} {A} (a : A) : M A := fun g => Ok (a, g).

Definition raise `{Externals} {A} (e : exn) : M A := fun _ => Raise e.

Definition bind `{Externals} {A B} (c : M A) (k : A -> M B) : M B :=
  fun g =>
    match c g with
    | Ok (a, g') => k a g'
    | Raise e => Raise e
    | OutOfFuel => OutOfFuel
    end.

Definition lift `{Externals} {A} (o : outcome A) : M A :=
  fun g =>
    match o with
    | Ok a => Ok (a, g)
    | Raise e => Raise e
    | OutOfFuel => OutOfFuel
    end.

Declare Scope sir_scope.
Notation "x <- c ;; k" := (bind c (fun x => k))
  (at level 100, c at next level, right associativity) : sir_scope.
Notation "' p <- c ;; k" := (bind c (fun p => k))
  (at level 100, p pattern, c at next level, right associativity) : sir_scope.
Local Open Scope sir_scope.

(** ** NumPy helpers *)

(** [float(z)] / the int64-to-float64 conversion NumPy applies when an integer
    meets a float, for |z| < 2^63. *)
Definition float_of_Z (z : Z) : float :=
  if z <? 0 then PrimFloat.opp (PrimFloat.of_uint63 (Uint63.of_Z (- z)))
  else PrimFloat.of_uint63 (Uint63.of_Z z).

Definition np_sum (a : list Z) : Z := fold_right Z.add 0 a.

Fixpoint cumsum_from (acc : Z) (a : list Z) : list Z :=
  match a with
  | [] => []
  | x :: a' => (acc + x) :: cumsum_from (acc + x) a'
  end.

(** [np.cumsum]: inclusive running totals. *)
Definition np_cumsum (a : list Z) : list Z := cumsum_from 0 a.

Fixpoint where_from (i : Z) (mask : list bool) : list Z :=
  match mask with
  | [] => []
  | b :: mask' =>
      if b then i :: where_from (i + 1) mask' else where_from (i + 1) mask'
  end.

(** [np.where(mask)] on a one-dimensional mask: the indices that hold [True]. *)
Definition np_where (mask : list bool) : list Z := where_from 0 mask.

(** [np.max]: raises [ValueError] on an empty array. *)
Definition np_max (a : list Z) : outcome Z :=
  match a with
  | [] => Raise ValueError
  | x :: a' => Ok (fold_left Z.max a' x)
  end.

(** [range(n)] / [np.arange(n)]. *)
Definition range (n : Z) : list Z := map Z.of_nat (seq 0 (Z.to_nat n)).

(** [a[i]] on a one-dimensional array or list, with Python's negative
    indices. *)
Definition getitem {A} (a : list A) (i : Z) : outcome A :=
  let n := Z.of_nat (length a) in
  let j := if i <? 0 then i + n else i in
  if (0 <=? j) && (j <? n) then
    match nth_error a (Z.to_nat j) with
    | Some x => Ok x
    | None => Raise IndexError
    end
  else Raise IndexError.

(** [a[:n]] for [n >= 0]. *)
Definition slice_to {A} (a : list A) (n : Z) : list A := firstn (Z.to_nat n) a.

(** ** The SIR curve simulator *)

Record sir_state : Type := {
  num_infected : Z;
  num_recovered : Z;
  num_susceptible : Z;
  list_of_new_infections : list Z
}.

Section Simulator.
Context `{Externals}.

(** Lines 101-105: the state before the loop. *)
Definition sir_init (pop_size : Z) : sir_state :=
  let infected0 := 1 in
  let recovered0 := 0 in
  {| num_infected := infected0;
     num_recovered := recovered0;
     num_susceptible := pop_size - infected0 - recovered0;
     list_of_new_infections := [infected0] |}.

(** Lines 109-132: one iteration of the loop body. *)
Definition sir_step (pop_size : Z) (beta gamma : float) (s : sir_state)
  : M sir_state :=
  fun g =>
    if pop_size =? 0 then Raise ZeroDivisionError
    else
      let frac_pop_infected :=
        (float_of_Z (num_infected s) / float_of_Z pop_size)%float in
      let prob_infected :=
        (1 - np_exp ((- beta) * frac_pop_infected))%float in
      let '(num_new_infections, g1) :=
        binom_rvs (num_susceptible s) prob_infected g in
      let prob_recover := (1 - np_exp (- gamma))%float in
      let '(num_new_recoveries, g2) :=
        binom_rvs (num_infected s) prob_recover g1 in
      Ok ({| num_infected :=
               num_infected s + num_new_infections - num_new_recoveries;
             num_recovered := num_recovered s + num_new_recoveries;
             num_susceptible := num_susceptible s - num_new_infections;
             list_of_new_infections :=
               list_of_new_infections s ++ [num_new_infections] |}, g2).

(** Line 108: [while num_infected > 0], cut after [fuel] iterations. *)
Fixpoint sir_while (fuel : nat) (pop_size : Z) (beta gamma : float)
  (s : sir_state) : M sir_state :=
  if 0 <? num_infected s then
    match fuel with
    | O => fun _ => OutOfFuel
    | S fuel' =>
        s' <- sir_step pop_size beta gamma s ;;
        sir_while fuel' pop_size beta gamma s'
    end
  else ret s.

Definition generate_ground_truth_SIR_curve (fuel : nat) (pop_size : Z)
  (beta gamma : float) : M (list Z) :=
  s <- sir_while fuel pop_size beta gamma (sir_init pop_size) ;;
  ret (list_of_new_infections s).

(** The states the loop passes through: the state it starts in, and the
    state after each iteration it runs. *)
Inductive sir_reach (pop_size : Z) (beta gamma : float)
  : sir_state * rng -> sir_state * rng -> Prop :=
| sir_reach_start sg : sir_reach pop_size beta gamma sg sg
| sir_reach_iter sg s1 g1 s2 g2 :
    sir_reach pop_size beta gamma sg (s1, g1) ->
    0 < num_infected s1 ->
    sir_step pop_size beta gamma s1 g1 = Ok (s2, g2) ->
    sir_reach pop_size beta gamma sg (s2, g2).

End Simulator.

(** ** The observation window extractor *)

(** The variables of the rejection loop (lines 157-164).  The curve is
    unbound until the first attempt has run. *)
Record retry_vars : Type := {
  cur_total : Z;
  cur_count : Z;
  cur_curve : option (list Z)
}.

Definition retry_start : retry_vars :=
  {| cur_total := 0; cur_count := 0; cur_curve := None |}.

(** Lines 166-176: the cut of a curve at the target size. *)
Definition observation_window (percent : float) (total : Z)
  (ground_truth_infections : list Z) : outcome (list Z) :=
  let target_size := (float_of_Z total * percent)%float in
  let cumulative_infections := np_cumsum ground_truth_infections in
  match
    np_max (np_where
              (map (fun c => (float_of_Z c <? target_size)%float)
                 cumulative_infections))
  with
  | Ok last_below =>
      match np_max [last_below; 2] with
      | Ok current_time => Ok (slice_to ground_truth_infections current_time)
      | Raise e => Raise e
      | OutOfFuel => OutOfFuel
      end
  | Raise e => Raise e
  | OutOfFuel => OutOfFuel
  end.

Section Extractor.
Context `{Externals}.

(** Line 161: [while total_infections < 10 and count < 5000].  [budget]
    bounds the iterations of the model; the test on the count bounds those
    of the source, and 5000 is enough ([retry_while_budget]). *)
Fixpoint retry_while (budget : nat) (sim : M (list Z)) (r : retry_vars)
  : M retry_vars :=
  if (cur_total r <? 10) && (cur_count r <? 5000) then
    match budget with
    | O => fun _ => OutOfFuel
    | S budget' =>
        curve <- sim ;;
        retry_while budget' sim
          {| cur_total := np_sum curve;
             cur_count := cur_count r + 1;
             cur_curve := Some curve |}
    end
  else ret r.

Definition generate_observed_SIR_curves (fuel : nat) (percent : float)
  (pop_size : Z) (beta gamma : float) : M (list Z * list Z) :=
  r <- retry_while (Z.to_nat 5000)
         (generate_ground_truth_SIR_curve fuel pop_size beta gamma)
         retry_start ;;
  match cur_curve r with
  | None => raise UnboundLocalError
  | Some ground_truth_infections =>
      observed_infections <-
        lift (observation_window percent (cur_total r)
                ground_truth_infections) ;;
      ret (observed_infections, ground_truth_infections)
  end.

(** [n] consecutive attempts of [sim], each rejected for a total below 10,
    lead from generator state [g] to [g']. *)
Inductive rejected (sim : M (list Z)) : nat -> rng -> rng -> Prop :=
| rejected_none g : rejected sim O g g
| rejected_more n g curve g1 g2 :
    sim g = Ok (curve, g1) ->
    np_sum curve < 10 ->
    rejected sim n g1 g2 ->
    rejected sim (S n) g g2.

End Extractor.

(** ** The batch orchestrator *)

Record meta_data : Type := {
  num_epidemics : Z;
  epidemic_id : Z;
  frac_estimate_of_total : float;
  percent_infected : float;
  pop_size : Z;
  beta : float;
  gamma : float
}.

(** A two-dimensional float array, by rows; [ncols] is its second
    dimension (kept apart: an array may have no row). *)
Record matrix : Type := {
  ncols : Z;
  rows : list (list float)
}.

(** The int-valued float64 arrays [cumulative_infections_over_time] and
    [ground_truth_cumulative_infections_over_time] are kept by their integer
    values: sums of counts below 2^53 are exact in binary64. *)
Record disease_trajectory : Type := {
  unique_id : Z;
  simulation_number : Z;
  epidemic_number : Z;
  num_new_infections_over_time : list Z;
  estimated_infections : float;
  ground_truth_infections_over_time : list Z;
  total_infections : Z;
  v : list float;
  alpha : list float;
  metadata : meta_data;
  t : list Z;
  ground_truth_t : list Z;
  cumulative_infections_over_time : list Z;
  ground_truth_cumulative_infections_over_time : list Z
}.

(** [m[:, k]] *)
Definition column (m : matrix) (k : Z) : outcome (list float) :=
  let j := if k <? 0 then k + ncols m else k in
  if (0 <=? j) && (j <? ncols m) then
    Ok (map (fun r => nth (Z.to_nat j) r 0%float) (rows m))
  else Raise IndexError.

(** [np.cumsum(np.concatenate(([0.], series)))[:-1]] *)
Definition previous_day_cumsum (series : list Z) : list Z :=
  removelast (np_cumsum (0 :: series)).

(** Lines 224-248: the record built from one extractor result. *)
Definition make_trajectory (uid j k : Z) (md : meta_data) (vk alpha0 : list float)
  (observed_infections ground_truth_infections : list Z) : disease_trajectory :=
  {| unique_id := uid;
     simulation_number := j;
     epidemic_number := k;
     num_new_infections_over_time := observed_infections;
     estimated_infections :=
       (float_of_Z (np_sum observed_infections) / frac_estimate_of_total md)%float;
     ground_truth_infections_over_time := ground_truth_infections;
     total_infections := np_sum ground_truth_infections;
     v := vk;
     alpha := alpha0;
     metadata := md;
     t := range (Z.of_nat (length observed_infections));
     ground_truth_t := range (Z.of_nat (length ground_truth_infections));
     cumulative_infections_over_time := previous_day_cumsum observed_infections;
     ground_truth_cumulative_infections_over_time :=
       previous_day_cumsum ground_truth_infections |}.

Section Orchestrator.
Context `{Externals}.

Definition draw_uniform (low high : float) : M float :=
  fun g => Ok (uniform low high g).

Fixpoint uniform_draws (low high : float) (n : nat) : M (list float) :=
  match n with
  | O => ret []
  | S n' =>
      x <- draw_uniform low high ;;
      xs <- uniform_draws low high n' ;;
      ret (x :: xs)
  end.

(** [np.random.uniform(low, high, size)] for an integer size. *)
Definition np_random_uniform (low high : float) (size : Z) : M (list float) :=
  if size <? 0 then raise ValueError
  else uniform_draws low high (Z.to_nat size).

(** [for x in xs: body], threading the variables the body assigns. *)
Fixpoint for_each {A S : Type} (xs : list A) (body : A -> S -> M S) (s : S)
  : M S :=
  match xs with
  | [] => ret s
  | x :: xs' => s' <- body x s ;; for_each xs' body s'
  end.

(** Lines 214-218 *)
Definition metadata_body (n : Z) (estimate : float) (percents : list float)
  (pop : Z) (betas : list float) (gamma0 : float) (i : Z)
  (list_of_meta_data : list meta_data) : M (list meta_data) :=
  p <- lift (getitem percents i) ;;
  b <- lift (getitem betas i) ;;
  ret (list_of_meta_data ++
       [{| num_epidemics := n;
           epidemic_id := i;
           frac_estimate_of_total := estimate;
           percent_infected := p;
           pop_size := pop;
           beta := b;
           gamma := gamma0 |}]).

(** Lines 223-250: the body of the inner loop; the loop variables are the
    list built so far and [unique_id]. *)
Definition trajectory_body (fuel : nat) (vv : matrix) (alpha0 : list float)
  (list_of_meta_data : list meta_data) (j k : Z)
  (acc : list disease_trajectory * Z) : M (list disease_trajectory * Z) :=
  md <- lift (getitem list_of_meta_data k) ;;
  ' (observed_infections, ground_truth_infections) <-
    generate_observed_SIR_curves fuel (percent_infected md) (pop_size md)
      (beta md) (gamma md) ;;
  vk <- lift (column vv k) ;;
  ret (fst acc ++
       [make_trajectory (snd acc) j k md vk alpha0
          observed_infections ground_truth_infections],
       snd acc + 1).

Definition generate_SIR_simulations {P : Type} (fuel : nat)
  (gen_beta_fn : P -> M (list float * matrix * list float))
  (beta_gen_parameters : P) (num_simulations n : Z)
  (constant_gamma : float) (constant_pop_size : Z)
  (const_estimate_of_total : float) : M (list disease_trajectory) :=
  ' (betas, vv, alpha0) <- gen_beta_fn beta_gen_parameters ;;
  percents <- np_random_uniform 0.05 1.0 n ;;
  list_of_meta_data <-
    for_each (range n)
      (metadata_body n const_estimate_of_total percents constant_pop_size
         betas constant_gamma) [] ;;
  acc <-
    for_each (range num_simulations)
      (fun j acc =>
         for_each (range n)
           (trajectory_body fuel vv alpha0 list_of_meta_data j) acc)
      ([], 0) ;;
  ret (fst acc).

(** ** The single-covariate beta generator *)

(** The inner product of two vectors, accumulated left to right. *)
Definition dot (a x : list float) : float :=
  match combine a x with
  | [] => 0%float
  | (a0, x0) :: rest =>
      fold_left (fun acc ax => (acc + fst ax * snd ax)%float) rest
        (a0 * x0)%float
  end.

(** [np.matmul(a, m)] for a vector [a] and a matrix [m]: one inner product
    per column. *)
Definition np_matmul (a : list float) (m : matrix) : outcome (list float) :=
  if Nat.eqb (length a) (length (rows m)) then
    Ok (map (fun i => dot a (map (fun r => nth (Z.to_nat i) r 0%float) (rows m)))
          (range (ncols m)))
  else Raise ValueError.

Definition generate_betas_from_single_random_covariate (n : Z)
  : M (list float * matrix * list float) :=
  draws <- np_random_uniform 0.0 1.0 n ;;
  let vv := {| ncols := n; rows := [draws] |} in
  let alpha0 := [1.0%float] in
  products <- lift (np_matmul alpha0 vv) ;;
  let betas := map (fun x => (0.4 * np_exp x)%float) products in
  ret (betas, vv, alpha0).

End Orchestrator.

(** ** The other beta generators *)

(** [np.ones(n)] and [np.zeros(n)]: a negative length is refused. *)
Definition np_ones (n : Z) : outcome (list float) :=
  if n <? 0 then Raise ValueError else Ok (repeat 1%float (Z.to_nat n)).

Definition np_zeros (n : Z) : outcome (list float) :=
  if n <? 0 then Raise ValueError else Ok (repeat 0%float (Z.to_nat n)).

Section ManyCovariates.
Context `{Externals}.

(** A two-dimensional draw fills the array row by row. *)
Fixpoint uniform_rows (low high : float) (nrows ncols : nat)
  : M (list (list float)) :=
  match nrows with
  | O => ret []
  | S nrows' =>
      row <- uniform_draws low high ncols ;;
      rest <- uniform_rows low high nrows' ncols ;;
      ret (row :: rest)
  end.

(** [np.random.uniform(low, high, size=(nrows, ncols))] *)
Definition np_random_uniform_2d (low high : float) (nrows ncols0 : Z)
  : M matrix :=
  if (nrows <? 0) || (ncols0 <? 0) then raise ValueError
  else
    drawn <- uniform_rows low high (Z.to_nat nrows) (Z.to_nat ncols0) ;;
    ret {| ncols := ncols0; rows := drawn |}.

(** Lines 306-316 *)
Definition generate_betas_many_cov2 (n num_pred num_not_pred : Z)
  : M (list float * matrix * list float) :=
  vv <- np_random_uniform_2d (-1) 1 (num_pred + num_not_pred) n ;;
  alpha_1 <- lift (np_ones num_pred) ;;
  alpha_0 <- lift (np_zeros num_not_pred) ;;
  let alpha0 := alpha_1 ++ alpha_0 in
  products <- lift (np_matmul alpha0 vv) ;;
  let betas := map (fun x => (1 + np_exp x)%float) products in
  ret (betas, vv, alpha0).

End ManyCovariates.

Section EffectModification.
Context `{Externals}.

(** One draw of [np.random.binomial(n, p)], and [np.log] on a scalar: two
    more library functions, used by this generator only. *)
Variable np_random_binomial : Z -> float -> rng -> Z * rng.
Variable np_log : float -> float.

Fixpoint binomial_draws (n : Z) (p : float) (k : nat) : M (list Z) :=
  match k with
  | O => ret []
  | S k' =>
      x <- (fun g => Ok (np_random_binomial n p g)) ;;
      xs <- binomial_draws n p k' ;;
      ret (x :: xs)
  end.

Fixpoint binomial_rows (n : Z) (p : float) (nrows ncols : nat)
  : M (list (list Z)) :=
  match nrows with
  | O => ret []
  | S nrows' =>
      row <- binomial_draws n p ncols ;;
      rest <- binomial_rows n p nrows' ncols ;;
      ret (row :: rest)
  end.

(** [np.random.binomial(n, p, size=(nrows, ncols))] *)
Definition np_random_binomial_2d (n : Z) (p : float) (nrows ncols0 : Z)
  : M (list (list Z)) :=
  if (nrows <? 0) || (ncols0 <? 0) then raise ValueError
  else binomial_rows n p (Z.to_nat nrows) (Z.to_nat ncols0).

(** A boolean that meets a float counts as 1.0 or 0.0. *)
Definition float_of_bool (b : bool) : float := if b then 1%float else 0%float.

(** Line 289, for one epidemic:
    [np.exp(np.log(1.5) + np.log(2.0) * (hd == 1) * (ws == 0))]; the two
    products associate to the left. *)
Definition effect_beta (h w : Z) : float :=
  np_exp (np_log 1.5
          + np_log 2 * float_of_bool (h =? 1)%Z * float_of_bool (w =? 0)%Z)%float.

(** Lines 286-291.  [v] is an integer array here, kept by rows. *)
Definition generate_betas_effect_mod (n : Z)
  : M (list float * list (list Z) * list float) :=
  vv <- np_random_binomial_2d 1 0.5 2 n ;;
  hd <- lift (getitem vv 0) ;;
  ws <- lift (getitem vv 1) ;;
  let betas := map (fun hw => effect_beta (fst hw) (snd hw)) (combine hd ws) in
  ret (betas, vv, []).

End EffectModification.

(** ** Scripted random sources

    Two concrete instances of [Externals], used to run the model on explicit
    inputs.  [scripted] reads its binomial and uniform draws off a tape,
    clamped to the sampler's range, and falls back to the largest value once
    the tape is empty; [saturated] has no state and always draws the largest
    binomial value and the lower end of the uniform range.  Neither sampler
    looks at the probability it is given, so the series standing for [np.exp]
    does not influence a run. *)

Definition tape : Type := (list Z * list float)%type.

Definition tape_binom (n : Z) (p : float) (g : tape) : Z * tape :=
  match fst g with
  | [] => (Z.max 0 n, g)
  | x :: xs => (Z.max 0 (Z.min n x), (xs, snd g))
  end.

Definition tape_uniform (low high : float) (g : tape) : float * tape :=
  match snd g with
  | [] => (low, g)
  | x :: xs =>
      (if ((low <=? x) && (x <=? high))%float then x else low, (fst g, xs))
  end.

(** The first terms of the exponential series. *)
Definition exp_series (x : float) : float :=
  fst (fold_left
         (fun st k =>
            let term := (snd st * x / float_of_Z k)%float in
            ((fst st + term)%float, term))
         (map Z.of_nat (seq 1 24)) (1%float, 1%float)).

Definition scripted : Externals :=
  {| rng := tape;
     binom_rvs := tape_binom;
     uniform := tape_uniform;
     np_exp := exp_series |}.

Definition saturated : Externals :=
  {| rng := unit;
     binom_rvs := fun n _ g => (Z.max 0 n, g);
     uniform := fun low _ g => (low, g);
     np_exp := exp_series |}.

(** The draws behind the curve 1, 2, 3, 4, 5, 0: new infections and new
    recoveries of each of its five steps. *)
Definition five_step_tape : tape := ([2; 0; 3; 1; 4; 2; 5; 3; 0; 9], []).

(** ** Specification vocabulary *)

(** [stats.binom.rvs(n, p)] returns a count between 0 and [n]. *)
Definition binom_in_support (E : Externals) : Prop :=
  forall n p g, 0 <= n -> 0 <= fst (binom_rvs n p g) <= n.

(** [np.random.uniform(low, high)] returns a value between its bounds. *)
Definition uniform_in_range (E : Externals) : Prop :=
  forall low high g,
    (low <=? high)%float = true ->
    (low <=? fst (uniform low high g))%float = true /\
    (fst (uniform low high g) <=? high)%float = true.

(** What holds of the loop variables throughout a run. *)
Definition sir_inv (pop : Z) (s : sir_state) : Prop :=
  num_susceptible s + num_infected s + num_recovered s = pop /\
  0 <= num_susceptible s /\ 0 <= num_infected s /\ 0 <= num_recovered s /\
  hd_error (list_of_new_infections s) = Some 1 /\
  Forall (fun x => 0 <= x <= pop) (list_of_new_infections s).

(** The running total up to and including day [i] is below the target size. *)
Definition below_target (percent : float) (total : Z) (curve : list Z)
  (i : nat) : Prop :=
  (i < length curve)%nat /\
  (float_of_Z (np_sum (firstn (S i) curve)) <? float_of_Z total * percent)%float
  = true.

(** The metadata of slot [i]: the batch constants with the slot's own
    [percent_infected] and [beta]. *)
Definition slot_metadata (n : Z) (estimate : float) (percents : list float)
  (pop : Z) (betas : list float) (gamma0 : float) (i : nat) (md : meta_data)
  : Prop :=
  exists p b,
    nth_error percents i = Some p /\ nth_error betas i = Some b /\
    md = {| num_epidemics := n;
            epidemic_id := Z.of_nat i;
            frac_estimate_of_total := estimate;
            percent_infected := p;
            pop_size := pop;
            beta := b;
            gamma := gamma0 |}.

Section BatchShape.
Context {E : Externals}.

(** The trajectory at position [p] of a batch with [slots] epidemics per
    simulation: built from an extractor result for slot [p mod slots], in
    simulation [p / slots], with identifier [p]. *)
Definition slot_trajectory (fuel : nat) (slots : nat) (mds : list meta_data)
  (vv : matrix) (alpha0 : list float) (p : nat) (tr : disease_trajectory)
  : Prop :=
  exists md vk observed curve g0 g1,
    nth_error mds (p mod slots) = Some md /\
    column vv (Z.of_nat (p mod slots)) = Ok vk /\
    generate_observed_SIR_curves fuel (percent_infected md) (pop_size md)
      (beta md) (gamma md) g0 = Ok ((observed, curve), g1) /\
    tr = make_trajectory (Z.of_nat p) (Z.of_nat (p / slots))
           (Z.of_nat (p mod slots)) md vk alpha0 observed curve.

Definition built (fuel : nat) (slots : nat) (mds : list meta_data)
  (vv : matrix) (alpha0 : list float) (l : list disease_trajectory) : Prop :=
  forall p tr, nth_error l p = Some tr ->
               slot_trajectory fuel slots mds vv alpha0 p tr.

End BatchShape.

(** A batch under the saturated source.

    Two simulations of two epidemics each.  Every uniform draw is the lower
    bound, so both slots have covariate 0, beta 0.4 and 5 percent observed;
    every curve is 1, 9999, 0 and its window is 1, 9999. *)

Definition demo_metadata (i : Z) : meta_data :=
  {| num_epidemics := 2;
     epidemic_id := i;
     frac_estimate_of_total := 0.5;
     percent_infected := 0.05;
     pop_size := 10000;
     beta := 0.4;
     gamma := 0.33 |}.

Definition demo_trajectory (uid j k : Z) : disease_trajectory :=
  make_trajectory uid j k (demo_metadata k) [0%float] [1%float]
    [1; 9999] [1; 9999; 0].

Definition demo_trajectories : list disease_trajectory :=
  [demo_trajectory 0 0 0; demo_trajectory 1 0 1;
   demo_trajectory 2 1 0; demo_trajectory 3 1 1].

(** The first terms of the series of the logarithm in
    [(x - 1) / (x + 1)], standing for [np.log] on the scripted runs. *)
Definition log_series (x : float) : float :=
  let z := ((x - 1) / (x + 1))%float in
  (2 * fst (fold_left
              (fun st k =>
                 let power := (snd st * z * z)%float in
                 ((fst st + power / float_of_Z (2 * k + 1))%float, power))
              (map Z.of_nat (seq 1 24)) (z, z)))%float.

(** A float that is positive and finite. *)
Definition float_pos_finite (x : float) : Prop :=
  (0 <? x)%float = true /\ (x <? infinity)%float = true.

(** * Properties *)

(** ** Binary64 facts *)

Lemma digits2_pos_shift (k : nat) (m : positive) :
  Z.pos (digits2_pos (Nat.iter k xO m)) = Z.pos (digits2_pos m) + Z.of_nat k.
Proof.
  induction k as [|k IH]; [simpl; lia|].
  change (Nat.iter (S k) xO m) with (xO (Nat.iter k xO m)).
  cbn [digits2_pos]. rewrite Pos2Z.inj_succ, IH. lia.
Qed.

Lemma shr_52 (m : positive) (e0 : Z) :
  shr {| shr_m := Z.pos (Nat.iter 52 xO m); shr_r := false; shr_s := false |} e0 52
  = ({| shr_m := Z.pos m; shr_r := false; shr_s := false |}, e0 + 52).
Proof. reflexivity. Qed.

Lemma SF64mul_one_l (y : spec_float) :
  valid_binary y = true -> SF64mul (Prim2SF 1%float) y = y.
Proof.
  intros Hv.
  change (Prim2SF 1%float) with (S754_finite false 4503599627370496 (-52)).
  destruct y as [s|s| |s m e]; try reflexivity.
  unfold SF64mul, SFmul. cbn [xorb].
  change (4503599627370496 * m)%positive with (Nat.iter 52 xO m).
  unfold valid_binary, bounded, canonical_mantissa in Hv.
  apply andb_true_iff in Hv. destruct Hv as [Hc Hb].
  apply Z.eqb_eq in Hc.
  unfold binary_round_aux, shr_fexp.
  unfold Zdigits2 at 1. rewrite (digits2_pos_shift 52 m).
  replace (Z.pos (digits2_pos m) + Z.of_nat 52 + (-52 + e))
    with (Z.pos (digits2_pos m) + e) by lia.
  rewrite Hc.
  replace (e - (-52 + e)) with 52 by lia.
  unfold shr_record_of_loc at 1. rewrite shr_52.
  replace (-52 + e + 52) with e by lia.
  cbn [shr_m loc_of_shr_record shr_r shr_s round_nearest_even Zdigits2
       shr_record_of_loc].
  rewrite Hc, Z.sub_diag. cbn [shr shr_m].
  rewrite Hb. reflexivity.
Qed.

(** Multiplying by 1.0 is exact, for every binary64 value. *)
Lemma float_mul_one_l (x : float) : (1 * x)%float = x.
Proof.
  apply Prim2SF_inj. rewrite FloatAxioms.mul_spec.
  apply SF64mul_one_l, Prim2SF_valid.
Qed.

Lemma float_leb_refl_left (x y : float) :
  (x <=? y)%float = true -> (x <=? x)%float = true.
Proof.
  rewrite !FloatAxioms.leb_spec. unfold SFleb.
  destruct (Prim2SF x) as [s|s| |s m e]; cbn.
  - reflexivity.
  - destruct s; reflexivity.
  - discriminate.
  - intros _.
    change (PosDef.Pos.compare_cont Eq m m) with (Pos.compare m m).
    destruct s; rewrite Z.compare_refl, Pos.compare_refl; reflexivity.
Qed.

(** ** The scripted samplers comply with what is assumed of samplers *)

Lemma scripted_binom_in_support : binom_in_support scripted.
Proof.
  intros n p [zs fs] Hn. cbn. unfold tape_binom. cbn.
  destruct zs as [|x xs]; cbn; lia.
Qed.

Lemma saturated_binom_in_support : binom_in_support saturated.
Proof. intros n p g Hn. cbn. lia. Qed.

Lemma scripted_uniform_in_range : uniform_in_range scripted.
Proof.
  intros low high [zs fs] Hle. cbn. unfold tape_uniform. cbn.
  pose proof (float_leb_refl_left _ _ Hle) as Hrefl.
  destruct fs as [|x xs]; cbn; [now split|].
  destruct ((low <=? x)%float) eqn:E1; destruct ((x <=? high)%float) eqn:E2;
    cbn; rewrite ?E1, ?E2; now split.
Qed.

Lemma saturated_uniform_in_range : uniform_in_range saturated.
Proof.
  intros low high g Hle. cbn. split; [|exact Hle].
  exact (float_leb_refl_left _ _ Hle).
Qed.

(** ** Sums *)

Lemma np_sum_app (l : list Z) (x : Z) : np_sum (l ++ [x]) = np_sum l + x.
Proof.
  unfold np_sum. induction l as [|y l IH]; cbn; [lia|]. rewrite IH. lia.
Qed.

Lemma np_sum_firstn_bounds (l : list Z) (k : nat) :
  Forall (fun x => 0 <= x) l -> 0 <= np_sum (firstn k l) <= np_sum l.
Proof.
  intros Hall. revert k. induction Hall as [|x l Hx Hall IH]; intros k.
  - destruct k; cbn; lia.
  - destruct k as [|k]; cbn [firstn np_sum fold_right].
    + specialize (IH O). cbn in IH. unfold np_sum in IH. lia.
    + specialize (IH k). unfold np_sum in IH. lia.
Qed.

(** ** The monad *)

Section MonadFacts.
Context {E : Externals}.

Lemma bind_Ok {A B} (c : M A) (k : A -> M B) g b g' :
  bind c k g = Ok (b, g') <->
  exists a g1, c g = Ok (a, g1) /\ k a g1 = Ok (b, g').
Proof.
  unfold bind. split.
  - destruct (c g) as [[a g1]| |]; try discriminate. intros Hk. now exists a, g1.
  - intros (a & g1 & -> & Hk). exact Hk.
Qed.

Lemma ret_Ok {A} (a b : A) g g' : ret a g = Ok (b, g') <-> a = b /\ g = g'.
Proof. unfold ret. split; [intros [= -> ->]; now split | intros [-> ->]; reflexivity]. Qed.

Lemma lift_Ok {A} (o : outcome A) (a : A) g g' :
  lift o g = Ok (a, g') <-> o = Ok a /\ g = g'.
Proof.
  unfold lift. destruct o; split; try discriminate; try (intros [[=] _]; fail).
  - intros [= -> ->]. now split.
  - intros [[= ->] ->]. reflexivity.
Qed.

End MonadFacts.

(** ** The SIR curve simulator *)

Section SimulatorFacts.
Context {E : Externals}.

(** One iteration, spelled out by its two draws. *)
Lemma sir_step_Ok pop b gm s g s' g' :
  sir_step pop b gm s g = Ok (s', g') ->
  exists p1 p2 g1 nI nR,
    pop <> 0 /\
    binom_rvs (num_susceptible s) p1 g = (nI, g1) /\
    binom_rvs (num_infected s) p2 g1 = (nR, g') /\
    s' = {| num_infected := num_infected s + nI - nR;
            num_recovered := num_recovered s + nR;
            num_susceptible := num_susceptible s - nI;
            list_of_new_infections := list_of_new_infections s ++ [nI] |}.
Proof.
  unfold sir_step. destruct (pop =? 0) eqn:Hp; [discriminate|].
  apply Z.eqb_neq in Hp.
  match goal with |- context [binom_rvs (num_susceptible s) ?p g] =>
    destruct (binom_rvs (num_susceptible s) p g) as [nI g1] eqn:E1; set (p1 := p) in * end.
  match goal with |- context [binom_rvs (num_infected s) ?p g1] =>
    destruct (binom_rvs (num_infected s) p g1) as [nR g2] eqn:E2; set (p2 := p) in * end.
  intros [= <- <-]. exists p1, p2, g1, nI, nR. repeat split; assumption.
Qed.

Lemma sir_step_conserves pop b gm s g s' g' :
  sir_step pop b gm s g = Ok (s', g') ->
  num_susceptible s' + num_infected s' + num_recovered s'
  = num_susceptible s + num_infected s + num_recovered s.
Proof.
  intros Hs. apply sir_step_Ok in Hs.
  destruct Hs as (p1 & p2 & g1 & nI & nR & _ & _ & _ & ->). cbn. lia.
Qed.

Lemma sir_reach_invariant (P : sir_state -> Prop) pop b gm :
  (forall s g s' g',
      P s -> 0 < num_infected s -> sir_step pop b gm s g = Ok (s', g') -> P s') ->
  forall s0 g0 s g, sir_reach pop b gm (s0, g0) (s, g) -> P s0 -> P s.
Proof.
  intros Hstep s0 g0 s g Hr.
  remember (s0, g0) as sg0 eqn:E0. remember (s, g) as sg eqn:E1.
  revert s g E1. induction Hr as [sg|sg s1 g1 s2 g2 Hr IH Hpos Hs]; intros s g E1 H0.
  - subst sg. injection E1 as -> ->. exact H0.
  - injection E1 as -> ->. eapply Hstep; [|exact Hpos|exact Hs].
    eapply IH; [exact E0|reflexivity|exact H0].
Qed.

(** An iteration at the front of a run. *)
Lemma sir_reach_front pop b gm s g sg1 sg' :
  0 < num_infected s ->
  sir_step pop b gm s g = Ok sg1 ->
  sir_reach pop b gm sg1 sg' ->
  sir_reach pop b gm (s, g) sg'.
Proof.
  intros Hpos Hs Hr.
  induction Hr as [[s1 g1]|sg s2 g2 s3 g3 Hr IH Hpos' Hs'].
  - eapply sir_reach_iter; [apply sir_reach_start|exact Hpos|exact Hs].
  - eapply sir_reach_iter; [apply IH; exact Hs|exact Hpos'|exact Hs'].
Qed.

(** The loop returns a state it reached, with nobody infected. *)
Lemma sir_while_reach fuel pop b gm s g s' g' :
  sir_while fuel pop b gm s g = Ok (s', g') ->
  sir_reach pop b gm (s, g) (s', g') /\ num_infected s' <= 0.
Proof.
  revert s g. induction fuel as [|fuel IH]; intros s g; cbn [sir_while];
    destruct (0 <? num_infected s) eqn:Hpos.
  - discriminate.
  - intros [<- <-]%ret_Ok. split; [apply sir_reach_start|].
    apply Z.ltb_ge in Hpos. exact Hpos.
  - intros (s1 & g1 & Hs & Hw)%bind_Ok. apply IH in Hw. destruct Hw as [Hr Hz].
    split; [|exact Hz]. apply Z.ltb_lt in Hpos.
    eapply sir_reach_front; eassumption.
  - intros [<- <-]%ret_Ok. split; [apply sir_reach_start|].
    apply Z.ltb_ge in Hpos. exact Hpos.
Qed.

End SimulatorFacts.

Section SimulatorProperties.
Context {E : Externals}.

Lemma sir_init_inv pop : 0 < pop -> sir_inv pop (sir_init pop).
Proof.
  intros Hp. unfold sir_inv, sir_init. cbn.
  repeat split; try lia. constructor; [lia|constructor].
Qed.

Lemma sir_step_inv pop b gm s g s' g' :
  binom_in_support E ->
  sir_inv pop s ->
  sir_step pop b gm s g = Ok (s', g') ->
  sir_inv pop s'.
Proof.
  intros Hsup (Hsum & HS & HI & HR & Hhd & Hall) Hs.
  apply sir_step_Ok in Hs.
  destruct Hs as (p1 & p2 & g1 & nI & nR & _ & E1 & E2 & ->).
  pose proof (Hsup _ p1 g HS) as B1. rewrite E1 in B1.
  pose proof (Hsup _ p2 g1 HI) as B2. rewrite E2 in B2.
  cbn in B1, B2. unfold sir_inv. cbn.
  repeat split; try lia.
  - destruct (list_of_new_infections s); [discriminate|exact Hhd].
  - apply Forall_app. split; [exact Hall|]. constructor; [lia|constructor].
Qed.

Lemma sir_reach_inv pop b gm g s' g' :
  binom_in_support E ->
  0 < pop ->
  sir_reach pop b gm (sir_init pop, g) (s', g') ->
  sir_inv pop s'.
Proof.
  intros Hsup Hp Hr.
  eapply (sir_reach_invariant (sir_inv pop)); [|exact Hr|apply sir_init_inv; exact Hp].
  intros s0 g0 s1 g1 Hinv _ Hs. eapply sir_step_inv; eassumption.
Qed.

(** C4.  In [generate_ground_truth_SIR_curve] the three compartments add up
    to [pop_size] before the loop and after every iteration of it: at every
    state the loop reaches from its initial one,
    susceptible + infected + recovered = pop_size. *)
Theorem population_conserved pop b gm g s' g' :
  sir_reach pop b gm (sir_init pop, g) (s', g') ->
  num_susceptible s' + num_infected s' + num_recovered s' = pop.
Proof.
  intros Hr.
  eapply (sir_reach_invariant
            (fun s => num_susceptible s + num_infected s + num_recovered s = pop));
    [|exact Hr|cbn; lia].
  intros s0 g0 s1 g1 Hsum _ Hs.
  rewrite (sir_step_conserves _ _ _ _ _ _ _ Hs). exact Hsum.
Qed.

(** C10.  With binomial draws inside their support and a positive
    population, every state the loop reaches has non-negative susceptible,
    infected and recovered counts, every recorded count lies between 0 and
    [pop_size], and the next iteration draws at most the current
    susceptible count of new infections and at most the current infected
    count of recoveries. *)
Theorem compartments_stay_nonnegative pop b gm g s' g' :
  binom_in_support E ->
  0 < pop ->
  sir_reach pop b gm (sir_init pop, g) (s', g') ->
  0 <= num_susceptible s' /\ 0 <= num_infected s' /\ 0 <= num_recovered s' /\
  Forall (fun x => 0 <= x <= pop) (list_of_new_infections s') /\
  forall s2 g2,
    0 < num_infected s' ->
    sir_step pop b gm s' g' = Ok (s2, g2) ->
    exists nI nR,
      0 <= nI <= num_susceptible s' /\
      0 <= nR <= num_infected s' /\
      list_of_new_infections s2 = list_of_new_infections s' ++ [nI] /\
      num_susceptible s2 = num_susceptible s' - nI /\
      num_infected s2 = num_infected s' + nI - nR /\
      num_recovered s2 = num_recovered s' + nR.
Proof.
  intros Hsup Hp Hr.
  destruct (sir_reach_inv _ _ _ _ _ _ Hsup Hp Hr) as (Hsum & HS & HI & HR & Hhd & Hall).
  repeat split; try assumption.
  intros s2 g2 _ Hs. apply sir_step_Ok in Hs.
  destruct Hs as (p1 & p2 & g1 & nI & nR & _ & E1 & E2 & ->).
  pose proof (Hsup _ p1 g' HS) as B1. rewrite E1 in B1.
  pose proof (Hsup _ p2 g1 HI) as B2. rewrite E2 in B2.
  exists nI, nR. cbn in *. repeat split; lia.
Qed.

Lemma generate_ground_truth_SIR_curve_Ok fuel pop b gm g curve g' :
  generate_ground_truth_SIR_curve fuel pop b gm g = Ok (curve, g') ->
  exists s',
    sir_reach pop b gm (sir_init pop, g) (s', g') /\
    num_infected s' <= 0 /\ curve = list_of_new_infections s'.
Proof.
  unfold generate_ground_truth_SIR_curve.
  intros (s' & g1 & Hw & [<- <-]%ret_Ok)%bind_Ok.
  apply sir_while_reach in Hw. destruct Hw as [Hr Hz].
  exists s'. repeat split; assumption.
Qed.

(** C7.  With binomial draws inside their support and a positive
    population, every curve [generate_ground_truth_SIR_curve] returns
    starts with 1 and holds non-negative counts only. *)
Theorem ground_truth_curve_starts_at_one fuel pop b gm g curve g' :
  binom_in_support E ->
  0 < pop ->
  generate_ground_truth_SIR_curve fuel pop b gm g = Ok (curve, g') ->
  hd_error curve = Some 1 /\ Forall (fun x => 0 <= x) curve.
Proof.
  intros Hsup Hp Hc. apply generate_ground_truth_SIR_curve_Ok in Hc.
  destruct Hc as (s' & Hr & _ & ->).
  destruct (sir_reach_inv _ _ _ _ _ _ Hsup Hp Hr) as (_ & _ & _ & _ & Hhd & Hall).
  split; [exact Hhd|].
  eapply Forall_impl; [|exact Hall]. cbn. intros; lia.
Qed.

(** The loop runs at least once, so a returned curve has at least the seed
    case and one more entry. *)
Lemma ground_truth_curve_length fuel pop b gm g curve g' :
  generate_ground_truth_SIR_curve fuel pop b gm g = Ok (curve, g') ->
  (2 <= length curve)%nat.
Proof.
  intros Hc. apply generate_ground_truth_SIR_curve_Ok in Hc.
  destruct Hc as (s' & Hr & Hz & ->).
  assert (Hinv : (1 <= length (list_of_new_infections s'))%nat /\
                 (length (list_of_new_infections s') = 1%nat -> num_infected s' = 1)).
  { eapply (sir_reach_invariant
              (fun s => (1 <= length (list_of_new_infections s))%nat /\
                        (length (list_of_new_infections s) = 1%nat -> num_infected s = 1)));
      [|exact Hr|cbn; split; [lia|reflexivity]].
    intros s0 g0 s1 g1 [Hlen _] _ Hs. apply sir_step_Ok in Hs.
    destruct Hs as (p1 & p2 & g1' & nI & nR & _ & _ & _ & ->). cbn.
    rewrite length_app. cbn. split; lia. }
  destruct Hinv as [H1 H2]. lia.
Qed.

(** The recorded infections and the remaining susceptibles add up to the
    population: a curve never totals more than [pop_size]. *)
Lemma sir_reach_total pop b gm g s' g' :
  sir_reach pop b gm (sir_init pop, g) (s', g') ->
  np_sum (list_of_new_infections s') + num_susceptible s' = pop.
Proof.
  intros Hr.
  eapply (sir_reach_invariant
            (fun s => np_sum (list_of_new_infections s) + num_susceptible s = pop));
    [|exact Hr|unfold sir_init, np_sum; cbn [list_of_new_infections num_susceptible fold_right]; lia].
  intros s0 g0 s1 g1 Hsum _ Hs. apply sir_step_Ok in Hs.
  destruct Hs as (p1 & p2 & g1' & nI & nR & _ & _ & _ & ->). cbn.
  rewrite np_sum_app. lia.
Qed.

End SimulatorProperties.

(** The five scripted steps: the curve 1, 2, 3, 4, 5, 0 in a population of
    10000. *)
Lemma five_step_curve :
  @generate_ground_truth_SIR_curve scripted 100 10000 0.5 0.33 five_step_tape
  = Ok ([1; 2; 3; 4; 5; 0], ([], [])).
Proof. vm_compute. reflexivity. Qed.

Lemma five_step_first_iteration :
  @sir_reach scripted 10000 0.5 0.33 (sir_init 10000, five_step_tape)
    ({| num_infected := 3; num_recovered := 0; num_susceptible := 9997;
        list_of_new_infections := [1; 2] |},
     ([3; 1; 4; 2; 5; 3; 0; 9], [])).
Proof.
  eapply (@sir_reach_iter scripted);
    [apply (@sir_reach_start scripted)|cbn; lia|vm_compute; reflexivity].
Qed.

Lemma population_conserved_witness : 9997 + 3 + 0 = 10000.
Proof.
  exact (@population_conserved scripted 10000 0.5 0.33 five_step_tape _ _
           five_step_first_iteration).
Defined.

Lemma compartments_stay_nonnegative_witness :
  Forall (fun x => 0 <= x <= 10000) [1; 2].
Proof.
  refine (proj1 (proj2 (proj2 (proj2
    (@compartments_stay_nonnegative scripted 10000 0.5 0.33 five_step_tape _ _
       scripted_binom_in_support _ five_step_first_iteration))))).
  lia.
Defined.

Lemma ground_truth_curve_starts_at_one_witness :
  hd_error [1; 2; 3; 4; 5; 0] = Some 1 /\ Forall (fun x => 0 <= x) [1; 2; 3; 4; 5; 0].
Proof.
  refine (@ground_truth_curve_starts_at_one scripted 100 10000 0.5 0.33
            five_step_tape _ _ scripted_binom_in_support _ five_step_curve).
  lia.
Defined.

(** ** NumPy helpers *)

Lemma cumsum_from_length (a : list Z) (acc : Z) :
  length (cumsum_from acc a) = length a.
Proof.
  revert acc. induction a as [|x a IH]; intros acc; cbn; [reflexivity|].
  now rewrite IH.
Qed.

Lemma cumsum_from_nth (a : list Z) (acc : Z) (i : nat) :
  (i < length a)%nat ->
  nth_error (cumsum_from acc a) i = Some (acc + np_sum (firstn (S i) a)).
Proof.
  revert acc i. induction a as [|x a IH]; intros acc i Hi; cbn in Hi; [lia|].
  destruct i as [|i].
  - cbn. f_equal. lia.
  - cbn [cumsum_from nth_error]. rewrite IH by lia.
    f_equal. change (firstn (S (S i)) (x :: a)) with (x :: firstn (S i) a).
    cbn [np_sum fold_right]. unfold np_sum. lia.
Qed.

Lemma where_from_In (mask : list bool) (i j : Z) :
  In j (where_from i mask) <->
  i <= j /\ nth_error mask (Z.to_nat (j - i)) = Some true.
Proof.
  revert i. induction mask as [|b mask IH]; intros i; cbn [where_from].
  - split; [intros []|]. intros [_ Hn]. destruct (Z.to_nat (j - i)); discriminate.
  - assert (Hlater : In j (where_from (i + 1) mask) <->
                     i < j /\ nth_error (b :: mask) (Z.to_nat (j - i)) = Some true).
    { rewrite IH. split; intros [Hij Hn]; (split; [lia|]).
      - replace (Z.to_nat (j - i)) with (S (Z.to_nat (j - (i + 1)))) by lia. exact Hn.
      - replace (Z.to_nat (j - i)) with (S (Z.to_nat (j - (i + 1)))) in Hn by lia.
        exact Hn. }
    destruct b.
    + cbn [In]. rewrite Hlater. split.
      * intros [<-|[Hij Hn]]; [|split; [lia|exact Hn]].
        split; [lia|]. now rewrite Z.sub_diag.
      * intros [Hij Hn]. destruct (Z.eq_dec i j) as [->|Hne]; [now left|right].
        split; [lia|exact Hn].
    + rewrite Hlater. split; intros [Hij Hn]; (split; [lia|exact Hn]) || idtac.
      destruct (Z.eq_dec i j) as [->|Hne].
      * rewrite Z.sub_diag in Hn. discriminate.
      * split; [lia|exact Hn].
Qed.

Lemma fold_left_max_spec (l : list Z) (x : Z) :
  let m := fold_left Z.max l x in
  (m = x \/ In m l) /\ x <= m /\ Forall (fun y => y <= m) l.
Proof.
  revert x. induction l as [|y l IH]; intros x; cbn.
  - repeat split; [now left|lia|constructor].
  - destruct (IH (Z.max x y)) as ([Hm|Hm] & Hle & Hall).
    + repeat split; [|lia|constructor; [lia|exact Hall]].
      rewrite Hm.
      destruct (Z.max_spec x y) as [[_ Hxy]|[_ Hxy]]; rewrite Hxy;
        [right; now left|now left].
    + repeat split; [right; now right|lia|constructor; [lia|exact Hall]].
Qed.

(** [np.max(np.where(mask))] is the last index that holds [True]; it raises
    [ValueError] exactly when there is none. *)
Lemma np_max_where_Ok (mask : list bool) (m : Z) :
  np_max (np_where mask) = Ok m ->
  0 <= m /\ nth_error mask (Z.to_nat m) = Some true /\
  forall j, m < j -> nth_error mask (Z.to_nat j) <> Some true.
Proof.
  unfold np_max, np_where.
  destruct (where_from 0 mask) as [|x l] eqn:Ew; [discriminate|].
  intros [= <-].
  destruct (fold_left_max_spec l x) as (Hin & Hle & Hall).
  set (m := fold_left Z.max l x) in *.
  assert (Hm : In m (where_from 0 mask)).
  { rewrite Ew. destruct Hin as [->|Hin]; [now left|now right]. }
  apply where_from_In in Hm. destruct Hm as [H0 Hn]. rewrite Z.sub_0_r in Hn.
  repeat split; [exact H0|exact Hn|].
  intros j Hj Hcontra.
  assert (Hj' : In j (where_from 0 mask)).
  { apply where_from_In. rewrite Z.sub_0_r. split; [lia|exact Hcontra]. }
  rewrite Ew in Hj'. destruct Hj' as [<-|Hj']; [lia|].
  rewrite Forall_forall in Hall. specialize (Hall _ Hj'). lia.
Qed.

Lemma np_max_where_not_Ok (mask : list bool) :
  (forall m, np_max (np_where mask) <> Ok m) ->
  np_max (np_where mask) = Raise ValueError /\
  forall i, nth_error mask i <> Some true.
Proof.
  unfold np_max, np_where. intros Hno.
  destruct (where_from 0 mask) as [|x l] eqn:Ew.
  - split; [reflexivity|]. intros i Hi.
    assert (Hin : In (Z.of_nat i) (where_from 0 mask)).
    { apply where_from_In. rewrite Z.sub_0_r, Nat2Z.id. split; [lia|exact Hi]. }
    rewrite Ew in Hin. destruct Hin.
  - exfalso. eapply Hno. reflexivity.
Qed.

(** ** The observation window *)

Lemma below_target_mask percent total curve i :
  nth_error
    (map (fun c => (float_of_Z c <? float_of_Z total * percent)%float)
       (np_cumsum curve)) i = Some true
  <-> below_target percent total curve i.
Proof.
  unfold below_target, np_cumsum. rewrite nth_error_map.
  destruct (Nat.lt_ge_cases i (length curve)) as [Hi|Hi].
  - rewrite cumsum_from_nth by exact Hi. cbn [option_map]. rewrite Z.add_0_l.
    split.
    + intros Hx. injection Hx as Hx. split; [exact Hi|exact Hx].
    + intros [_ Hx]. f_equal. exact Hx.
  - assert (Hn : nth_error (cumsum_from 0 curve) i = None).
    { apply nth_error_None. rewrite cumsum_from_length. exact Hi. }
    rewrite Hn. cbn. split; [discriminate|intros [Hlt _]; lia].
Qed.

(** The window that is returned: cut at the last day whose running total is
    below the target, or at 2 when that day is earlier. *)
Lemma observation_window_Ok percent total curve observed :
  observation_window percent total curve = Ok observed ->
  exists last : nat,
    below_target percent total curve last /\
    (forall i, (last < i)%nat -> ~ below_target percent total curve i) /\
    observed = firstn (Nat.max last 2) curve.
Proof.
  unfold observation_window.
  destruct (np_max (np_where _)) as [m| |] eqn:Em; try discriminate.
  apply np_max_where_Ok in Em. destruct Em as (H0 & Hn & Hlast).
  cbn [np_max fold_left]. intros [= <-].
  exists (Z.to_nat m). repeat split.
  - apply below_target_mask in Hn. apply Hn.
  - apply below_target_mask in Hn. apply Hn.
  - intros i Hi Hb. apply below_target_mask in Hb.
    apply (Hlast (Z.of_nat i)); [lia|]. now rewrite Nat2Z.id.
  - unfold slice_to. f_equal. lia.
Qed.

(** The window raises [ValueError] when no day has its running total below
    the target, and does nothing else. *)
Lemma observation_window_not_Ok percent total curve :
  (forall i, ~ below_target percent total curve i) ->
  observation_window percent total curve = Raise ValueError.
Proof.
  intros Hnone. unfold observation_window.
  destruct (np_max (np_where _)) as [m| |] eqn:Em.
  - apply np_max_where_Ok in Em. destruct Em as (_ & Hn & _).
    apply below_target_mask in Hn. now apply Hnone in Hn.
  - unfold np_max in Em. destruct (np_where _); [now injection Em as <-|discriminate].
  - unfold np_max in Em. destruct (np_where _); discriminate.
Qed.

(** ** The rejection loop *)

Section ExtractorFacts.
Context {E : Externals}.

Lemma retry_while_unfold budget (sim : M (list Z)) r :
  retry_while budget sim r =
  if (cur_total r <? 10) && (cur_count r <? 5000) then
    match budget with
    | O => fun _ => OutOfFuel
    | S budget' =>
        bind sim (fun curve =>
          retry_while budget' sim
            {| cur_total := np_sum curve;
               cur_count := cur_count r + 1;
               cur_curve := Some curve |})
    end
  else ret r.
Proof. destruct budget; reflexivity. Qed.

(** A run of the loop that returns: some rejected attempts, then the
    attempt whose curve is kept. *)
Lemma retry_while_sound (sim : M (list Z)) budget r0 g r g' :
  cur_total r0 < 10 ->
  cur_count r0 < 5000 ->
  5000 <= cur_count r0 + Z.of_nat budget ->
  retry_while budget sim r0 g = Ok (r, g') ->
  exists n g1 curve,
    rejected sim n g g1 /\ sim g1 = Ok (curve, g') /\
    cur_count r0 + Z.of_nat n + 1 <= 5000 /\
    (10 <= np_sum curve \/ cur_count r0 + Z.of_nat n + 1 = 5000) /\
    r = {| cur_total := np_sum curve;
           cur_count := cur_count r0 + Z.of_nat n + 1;
           cur_curve := Some curve |}.
Proof.
  revert r0 g. induction budget as [|budget IH]; intros r0 g Ht Hc Hb; [lia|].
  rewrite retry_while_unfold.
  replace (cur_total r0 <? 10) with true by (symmetry; apply Z.ltb_lt; exact Ht).
  replace (cur_count r0 <? 5000) with true by (symmetry; apply Z.ltb_lt; exact Hc).
  cbn [andb]. intros (curve & g1 & Hsim & Hrest)%bind_Ok.
  set (r1 := {| cur_total := np_sum curve; cur_count := cur_count r0 + 1;
                cur_curve := Some curve |}) in *.
  destruct (Z.lt_ge_cases (np_sum curve) 10) as [Hlow|Hhigh];
    [destruct (Z.lt_ge_cases (cur_count r0 + 1) 5000) as [Hmore|Hcap]|].
  - destruct (IH r1 g1 Hlow Hmore ltac:(cbn; lia) Hrest)
      as (n & g2 & curve' & Hrej & Hsim' & Hle & Hstop & ->).
    exists (S n), g2, curve'. cbn [cur_count r1] in *.
    repeat split.
    + eapply rejected_more; eassumption.
    + exact Hsim'.
    + lia.
    + destruct Hstop as [Hstop|Hstop]; [now left|right; lia].
    + f_equal. lia.
  - rewrite retry_while_unfold in Hrest. cbn [cur_total cur_count r1] in Hrest.
    replace (cur_count r0 + 1 <? 5000) with false in Hrest
      by (symmetry; apply Z.ltb_ge; exact Hcap).
    rewrite andb_false_r in Hrest. apply ret_Ok in Hrest. destruct Hrest as [<- <-].
    exists O, g, curve. cbn [Z.of_nat]. rewrite Z.add_0_r.
    repeat split; [apply rejected_none|exact Hsim|lia|right; lia].
  - rewrite retry_while_unfold in Hrest. cbn [cur_total cur_count r1] in Hrest.
    replace (np_sum curve <? 10) with false in Hrest
      by (symmetry; apply Z.ltb_ge; exact Hhigh).
    cbn [andb] in Hrest. apply ret_Ok in Hrest. destruct Hrest as [<- <-].
    exists O, g, curve. cbn [Z.of_nat]. rewrite Z.add_0_r.
    repeat split; [apply rejected_none|exact Hsim|lia|now left].
Qed.

(** Conversely, rejected attempts followed by an attempt that passes the
    threshold, or that is the 5000th, make the loop return that attempt. *)
Lemma retry_while_complete (sim : M (list Z)) n :
  forall budget r0 g g1 curve g',
    cur_total r0 < 10 ->
    rejected sim n g g1 ->
    sim g1 = Ok (curve, g') ->
    cur_count r0 + Z.of_nat n + 1 <= 5000 ->
    (10 <= np_sum curve \/ cur_count r0 + Z.of_nat n + 1 = 5000) ->
    (n < budget)%nat ->
    retry_while budget sim r0 g
    = Ok ({| cur_total := np_sum curve;
             cur_count := cur_count r0 + Z.of_nat n + 1;
             cur_curve := Some curve |}, g').
Proof.
  induction n as [|n IH]; intros budget r0 g g1 curve g' Ht Hrej Hsim Hle Hstop Hb;
    (destruct budget as [|budget]; [lia|]);
    rewrite retry_while_unfold;
    replace (cur_total r0 <? 10) with true by (symmetry; apply Z.ltb_lt; exact Ht);
    replace (cur_count r0 <? 5000) with true by (symmetry; apply Z.ltb_lt; lia);
    cbn [andb]; apply bind_Ok.
  - inversion Hrej; subst. exists curve, g'. split; [exact Hsim|].
    rewrite retry_while_unfold. cbn [cur_total cur_count Z.of_nat] in *.
    rewrite Z.add_0_r in *.
    replace ((np_sum curve <? 10) && (cur_count r0 + 1 <? 5000)) with false;
      [reflexivity|].
    symmetry. apply andb_false_iff.
    destruct Hstop as [Hstop|Hstop]; [left|right]; apply Z.ltb_ge; lia.
  - inversion Hrej as [|n' g0 c g2 g3 Hsim0 Hlow Hrej']; subst.
    exists c, g2. split; [exact Hsim0|].
    rewrite (IH budget
               {| cur_total := np_sum c; cur_count := cur_count r0 + 1;
                  cur_curve := Some c |} g2 g1 curve g' Hlow Hrej' Hsim);
      cbn [cur_count]; try lia.
    do 2 f_equal. f_equal. lia.
Qed.

(** 5000 iterations of the model are all the source loop can make: the
    loop never runs out of its own budget. *)
Lemma retry_while_budget (sim : M (list Z)) budget r0 g :
  (forall g0, sim g0 <> OutOfFuel) ->
  5000 <= cur_count r0 + Z.of_nat budget ->
  retry_while budget sim r0 g <> OutOfFuel.
Proof.
  intros Hsim. revert r0 g. induction budget as [|budget IH]; intros r0 g Hb;
    rewrite retry_while_unfold;
    destruct ((cur_total r0 <? 10) && (cur_count r0 <? 5000)) eqn:Hc;
    try (unfold ret; discriminate).
  - apply andb_true_iff in Hc. destruct Hc as [_ Hc]. apply Z.ltb_lt in Hc. lia.
  - unfold bind. destruct (sim g) as [[curve g1]|e|] eqn:Es.
    + apply IH. cbn. lia.
    + discriminate.
    + now apply Hsim in Es.
Qed.

Lemma generate_observed_SIR_curves_Ok fuel percent pop b gm g observed curve g' :
  generate_observed_SIR_curves fuel percent pop b gm g
  = Ok ((observed, curve), g') ->
  observation_window percent (np_sum curve) curve = Ok observed /\
  exists n g1,
    (n < 5000)%nat /\
    rejected (generate_ground_truth_SIR_curve fuel pop b gm) n g g1 /\
    generate_ground_truth_SIR_curve fuel pop b gm g1 = Ok (curve, g') /\
    (10 <= np_sum curve \/ n = 4999%nat).
Proof.
  unfold generate_observed_SIR_curves.
  intros (r & g1 & Hloop & Hrest)%bind_Ok.
  apply retry_while_sound in Hloop; [|cbn; lia..].
  destruct Hloop as (n & g2 & curve' & Hrej & Hsim & Hle & Hstop & ->).
  cbn [cur_curve cur_total cur_count retry_start] in *.
  apply bind_Ok in Hrest. destruct Hrest as (obs & g3 & Hw & Hret).
  apply lift_Ok in Hw. destruct Hw as [Hw <-].
  apply ret_Ok in Hret. destruct Hret as [[= <- <-] <-].
  split; [exact Hw|].
  exists n, g2. repeat split; [lia|exact Hrej|exact Hsim|].
  destruct Hstop as [Hstop|Hstop]; [now left|right; lia].
Qed.

(** Conversely: once the loop has settled on a curve, the function returns
    what the window makes of it. *)
Lemma generate_observed_SIR_curves_complete fuel percent pop b gm n g g1 curve g' :
  (n < 5000)%nat ->
  rejected (generate_ground_truth_SIR_curve fuel pop b gm) n g g1 ->
  generate_ground_truth_SIR_curve fuel pop b gm g1 = Ok (curve, g') ->
  (10 <= np_sum curve \/ n = 4999%nat) ->
  generate_observed_SIR_curves fuel percent pop b gm g
  = match observation_window percent (np_sum curve) curve with
    | Ok observed => Ok ((observed, curve), g')
    | Raise e => Raise e
    | OutOfFuel => OutOfFuel
    end.
Proof.
  intros Hn Hrej Hsim Hstop. unfold generate_observed_SIR_curves.
  unfold bind at 1.
  rewrite (retry_while_complete _ n (Z.to_nat 5000) retry_start g g1 curve g');
    cbn [cur_total cur_count cur_curve retry_start]; try lia; try assumption.
  unfold bind, lift, ret. destruct (observation_window _ _ _); reflexivity.
Qed.

End ExtractorFacts.

(** ** The observation window extractor *)

Section ExtractorProperties.
Context {E : Externals}.


(** C1, as the code has it.  When the curve kept by the rejection loop has
    no day whose running total is below the target size,
    [generate_observed_SIR_curves] raises [ValueError]: the maximum of the
    empty index set is taken before the floor at 2 is applied. *)
Theorem observed_curves_raise_without_day_below_target
  fuel percent pop b gm g r g' curve :
  retry_while (Z.to_nat 5000)
    (generate_ground_truth_SIR_curve fuel pop b gm) retry_start g = Ok (r, g') ->
  cur_curve r = Some curve ->
  (forall i, ~ below_target percent (cur_total r) curve i) ->
  generate_observed_SIR_curves fuel percent pop b gm g = Raise ValueError.
Proof.
  intros Hloop Hcurve Hnone. unfold generate_observed_SIR_curves, bind.
  rewrite Hloop, Hcurve.
  rewrite (observation_window_not_Ok _ _ _ Hnone). reflexivity.
Qed.

(** X1.  Whenever [generate_observed_SIR_curves] returns, the observed
    window has at least 2 entries and at most as many as the ground truth. *)
Theorem observed_window_length fuel percent pop b gm g observed curve g' :
  generate_observed_SIR_curves fuel percent pop b gm g
  = Ok ((observed, curve), g') ->
  (2 <= length observed <= length curve)%nat.
Proof.
  intros Hobs. apply generate_observed_SIR_curves_Ok in Hobs.
  destruct Hobs as (Hw & n & g1 & _ & _ & Hsim & _).
  apply ground_truth_curve_length in Hsim.
  apply observation_window_Ok in Hw. destruct Hw as (last & _ & _ & ->).
  rewrite length_firstn. lia.
Qed.

(** C2, as the code has it.  When the observed window is longer than the
    floor of 2, it is a strict prefix of the ground truth, and the window
    extended by one more day is still below the target size: the day at
    index [len(observed)] is the last one whose running total is below the
    target, and it is left out of the window. *)
Theorem window_extended_by_a_day_is_below_target
  fuel percent pop b gm g observed curve g' :
  generate_observed_SIR_curves fuel percent pop b gm g
  = Ok ((observed, curve), g') ->
  (2 < length observed)%nat ->
  observed = firstn (length observed) curve /\
  (length observed < length curve)%nat /\
  (float_of_Z (np_sum (firstn (S (length observed)) curve))
   <? float_of_Z (np_sum curve) * percent)%float = true /\
  forall i, (length observed < i)%nat ->
            ~ below_target percent (np_sum curve) curve i.
Proof.
  intros Hobs Hlong. apply generate_observed_SIR_curves_Ok in Hobs.
  destruct Hobs as (Hw & _).
  apply observation_window_Ok in Hw.
  destruct Hw as (last & [Hlast Hbelow] & Hnone & ->).
  rewrite length_firstn in *.
  assert (Hlen : Nat.min (Nat.max last 2) (length curve) = last) by lia.
  rewrite Hlen. repeat split; try assumption.
  f_equal. lia.
Qed.

(** X2.  In a population of one nobody is left to infect: every curve is
    the seed case followed by zeros, every running total is 1, and for a
    fraction that puts the target [1 * percent] at or below 1 no day is
    below the target.  With binomial draws inside their support,
    [generate_observed_SIR_curves] then never returns a result, whatever the
    draws. *)
Theorem single_person_population_is_never_observed fuel percent b gm g r :
  binom_in_support E ->
  (float_of_Z 1 <? float_of_Z 1 * percent)%float = false ->
  generate_observed_SIR_curves fuel percent 1 b gm g <> Ok r.
Proof.
  intros Hsup Hp Hobs. destruct r as [[observed curve] g'].
  apply generate_observed_SIR_curves_Ok in Hobs.
  destruct Hobs as (Hw & n & g1 & _ & _ & Hsim & _).
  apply generate_ground_truth_SIR_curve_Ok in Hsim.
  destruct Hsim as (s' & Hr & _ & ->).
  pose proof (sir_reach_total _ _ _ _ _ _ Hr) as Htotal.
  destruct (sir_reach_inv 1 _ _ _ _ _ Hsup Z.lt_0_1 Hr)
    as (_ & HS & _ & _ & Hhd & Hall).
  apply observation_window_Ok in Hw. destruct Hw as (last & [_ Hbelow] & _).
  destruct (list_of_new_infections s') as [|x rest]; [discriminate|].
  injection Hhd as ->. inversion Hall as [|? ? _ Hrest]; subst.
  assert (Hnonneg : Forall (fun y => 0 <= y) rest).
  { eapply Forall_impl; [|exact Hrest]. cbn. intros; lia. }
  pose proof (np_sum_firstn_bounds rest last Hnonneg) as Hprefix.
  change (np_sum (1 :: rest)) with (1 + np_sum rest) in *.
  change (firstn (S last) (1 :: rest)) with (1 :: firstn last rest) in Hbelow.
  change (np_sum (1 :: firstn last rest)) with (1 + np_sum (firstn last rest)) in Hbelow.
  replace (1 + np_sum (firstn last rest)) with 1 in Hbelow by lia.
  replace (1 + np_sum rest) with 1 in Hbelow by lia.
  rewrite Hp in Hbelow. discriminate.
Qed.

End ExtractorProperties.

(** The scripted curve 1, 2, 3, 4, 5, 0 (15 infections) observed at 5 percent:
    the target 0.75 is below the seed case. *)
Lemma five_step_retry :
  @retry_while scripted (Z.to_nat 5000)
    (@generate_ground_truth_SIR_curve scripted 100 10000 0.5 0.33) retry_start
    five_step_tape
  = Ok ({| cur_total := 15; cur_count := 1; cur_curve := Some [1; 2; 3; 4; 5; 0] |},
        ([], [])).
Proof. vm_compute. reflexivity. Qed.

Lemma five_step_no_day_below_target :
  forall i, ~ below_target 0.05 15 [1; 2; 3; 4; 5; 0] i.
Proof.
  intros i [Hi Hlt].
  do 6 (destruct i as [|i]; [vm_compute in Hlt; discriminate|]).
  cbn in Hi. lia.
Qed.

Lemma observed_curves_raise_at_five_percent :
  @generate_observed_SIR_curves scripted 100 0.05 10000 0.5 0.33 five_step_tape
  = Raise ValueError.
Proof.
  exact (@observed_curves_raise_without_day_below_target scripted
           100 0.05 10000 0.5 0.33 five_step_tape _ _ _
           five_step_retry eq_refl five_step_no_day_below_target).
Defined.

(** The same curve observed at 75 percent (target 11.25): the window is
    1, 2, 3 (total 6); one more day gives 10, still below the target. *)
Lemma five_step_observed_at_75_percent :
  @generate_observed_SIR_curves scripted 100 0.75 10000 0.5 0.33 five_step_tape
  = Ok (([1; 2; 3], [1; 2; 3; 4; 5; 0]), ([], [])).
Proof. vm_compute. reflexivity. Qed.

Lemma single_person_population_at_half :
  @generate_observed_SIR_curves saturated 10 0.5 1 0.5 0.33 tt
  <> Ok (([1; 0], [1; 0]), tt).
Proof.
  apply (@single_person_population_is_never_observed saturated 10 0.5 0.5 0.33 tt
           (([1; 0], [1; 0]), tt) saturated_binom_in_support).
  vm_compute. reflexivity.
Defined.

Lemma observed_window_length_at_75_percent :
  (2 <= length [1; 2; 3] <= length [1; 2; 3; 4; 5; 0])%nat.
Proof.
  exact (@observed_window_length scripted 100 0.75 10000 0.5 0.33
           five_step_tape _ _ _ five_step_observed_at_75_percent).
Defined.

Lemma window_extended_by_a_day_at_75_percent :
  (float_of_Z 10 <? float_of_Z 15 * 0.75)%float = true.
Proof.
  refine (proj1 (proj2 (proj2
    (@window_extended_by_a_day_is_below_target scripted 100 0.75 10000 0.5 0.33
       five_step_tape _ _ _ five_step_observed_at_75_percent _)))).
  cbn. lia.
Defined.

(** ** Ranges, indexing and [for] loops *)

Lemma range_length (n : Z) : length (range n) = Z.to_nat n.
Proof. unfold range. now rewrite length_map, length_seq. Qed.

Lemma range_nth (n : Z) (i : nat) (x : Z) :
  nth_error (range n) i = Some x -> x = Z.of_nat i /\ (i < Z.to_nat n)%nat.
Proof.
  unfold range. rewrite nth_error_map, nth_error_seq.
  destruct (i <? Z.to_nat n)%nat eqn:Ei; cbn; [|discriminate].
  intros [= <-]. split; [reflexivity|]. apply Nat.ltb_lt. exact Ei.
Qed.

Lemma getitem_of_nat {A} (a : list A) (i : nat) (x : A) :
  getitem a (Z.of_nat i) = Ok x <-> nth_error a i = Some x.
Proof.
  unfold getitem.
  replace (Z.of_nat i <? 0) with false by (symmetry; apply Z.ltb_ge; lia).
  rewrite Nat2Z.id. destruct (nth_error a i) as [y|] eqn:En.
  - assert (Hi : (i < length a)%nat) by (apply nth_error_Some; congruence).
    replace ((0 <=? Z.of_nat i) && (Z.of_nat i <? Z.of_nat (length a))) with true.
    + split; intros [= ->]; reflexivity.
    + symmetry. apply andb_true_iff. split; [apply Z.leb_le|apply Z.ltb_lt]; lia.
  - split; [|discriminate]. destruct (_ && _); discriminate.
Qed.

Lemma column_of_nat (m : matrix) (k : nat) :
  Z.of_nat k < ncols m ->
  column m (Z.of_nat k) = Ok (map (fun r => nth k r 0%float) (rows m)).
Proof.
  intros Hk. unfold column.
  replace (Z.of_nat k <? 0) with false by (symmetry; apply Z.ltb_ge; lia).
  replace ((0 <=? Z.of_nat k) && (Z.of_nat k <? ncols m)) with true.
  - now rewrite Nat2Z.id.
  - symmetry. apply andb_true_iff. split; [apply Z.leb_le|apply Z.ltb_lt]; lia.
Qed.


(** [previous_day_cumsum]: entry [i] is the total of the days before day
    [i]. *)
Lemma previous_day_cumsum_spec (series : list Z) :
  length (previous_day_cumsum series) = length series /\
  forall i, (i < length series)%nat ->
            nth_error (previous_day_cumsum series) i
            = Some (np_sum (firstn i series)).
Proof.
  unfold previous_day_cumsum, np_cumsum. cbn [cumsum_from]. rewrite Z.add_0_l.
  rewrite removelast_firstn_len. cbn [length Nat.pred].
  rewrite cumsum_from_length. split.
  - rewrite length_firstn. cbn [length]. rewrite cumsum_from_length. lia.
  - intros i Hi. rewrite nth_error_firstn.
    replace (i <? length series)%nat with true by (symmetry; apply Nat.ltb_lt; exact Hi).
    destruct i as [|i]; [reflexivity|].
    cbn [nth_error]. rewrite cumsum_from_nth by lia. now rewrite Z.add_0_l.
Qed.

Section LoopFacts.
Context {E : Externals}.

(** The loop rule: a property of the loop variables that holds before the
    loop and is carried by each iteration holds when the loop returns. *)
Lemma for_each_invariant {A S : Type} (xs : list A) (body : A -> S -> M S) :
  forall (P : nat -> S -> Prop),
    (forall i x s g s' g',
        nth_error xs i = Some x -> P i s -> body x s g = Ok (s', g') -> P (Datatypes.S i) s') ->
    forall s g s' g',
      P O s -> for_each xs body s g = Ok (s', g') -> P (length xs) s'.
Proof.
  induction xs as [|x xs IH]; intros P Hstep s g s' g' H0 Hrun.
  - cbn in Hrun. apply ret_Ok in Hrun. destruct Hrun as [<- _]. exact H0.
  - cbn [for_each] in Hrun. apply bind_Ok in Hrun.
    destruct Hrun as (s1 & g1 & Hbody & Hrest). cbn [length].
    apply (IH (fun i => P (Datatypes.S i))) with (s := s1) (g := g1) (g' := g').
    + intros i y t0 h t1 h1 Hn HP Hb. eapply (Hstep (Datatypes.S i)); eassumption.
    + eapply (Hstep O); [reflexivity|exact H0|exact Hbody].
    + exact Hrest.
Qed.

(** The loop returns when each iteration does. *)
Lemma for_each_returns {A S : Type} (xs : list A) (body : A -> S -> M S) :
  forall (P : nat -> S -> Prop),
    (forall i x s g,
        nth_error xs i = Some x -> P i s ->
        exists s' g', body x s g = Ok (s', g') /\ P (Datatypes.S i) s') ->
    forall s g,
      P O s ->
      exists s' g', for_each xs body s g = Ok (s', g') /\ P (length xs) s'.
Proof.
  induction xs as [|x xs IH]; intros P Hstep s g H0.
  - exists s, g. split; [reflexivity|exact H0].
  - destruct (Hstep O x s g eq_refl H0) as (s1 & g1 & Hbody & H1).
    destruct (IH (fun i => P (Datatypes.S i))
                (fun i y t0 h Hn HP => Hstep (Datatypes.S i) y t0 h Hn HP) s1 g1 H1)
      as (s' & g' & Hrest & Hend).
    exists s', g'. split; [|exact Hend].
    cbn [for_each]. apply bind_Ok. exists s1, g1. split; assumption.
Qed.

Lemma uniform_draws_Ok low high n g :
  exists xs g', uniform_draws low high n g = Ok (xs, g') /\ length xs = n.
Proof.
  revert g. induction n as [|n IH]; intros g.
  - exists [], g. split; reflexivity.
  - destruct (uniform low high g) as [x g1] eqn:Eu.
    destruct (IH g1) as (xs & g' & Hxs & Hlen).
    exists (x :: xs), g'. split; [|cbn; now rewrite Hlen].
    cbn [uniform_draws]. unfold bind at 1. unfold draw_uniform. rewrite Eu.
    unfold bind. rewrite Hxs. reflexivity.
Qed.

Lemma uniform_draws_length low high n g xs g' :
  uniform_draws low high n g = Ok (xs, g') -> length xs = n.
Proof.
  destruct (uniform_draws_Ok low high n g) as (ys & h & Hys & Hlen).
  rewrite Hys. intros [= <- _]. exact Hlen.
Qed.

Lemma uniform_draws_in_range low high n g xs g' :
  uniform_in_range E ->
  (low <=? high)%float = true ->
  uniform_draws low high n g = Ok (xs, g') ->
  Forall (fun x => (low <=? x)%float = true /\ (x <=? high)%float = true) xs.
Proof.
  intros Hrange Hle. revert g xs g'. induction n as [|n IH]; intros g xs g'.
  - cbn. intros [<- _]%ret_Ok. constructor.
  - cbn [uniform_draws].
    intros (x & g1 & Hx & (ys & g2 & Hys & [<- _]%ret_Ok)%bind_Ok)%bind_Ok.
    constructor; [|eapply IH; exact Hys].
    unfold draw_uniform in Hx. injection Hx as Hx.
    pose proof (Hrange low high g Hle) as Hr. rewrite Hx in Hr. exact Hr.
Qed.

Lemma np_random_uniform_Ok low high size g xs g' :
  np_random_uniform low high size g = Ok (xs, g') ->
  0 <= size /\ uniform_draws low high (Z.to_nat size) g = Ok (xs, g').
Proof.
  unfold np_random_uniform. destruct (size <? 0) eqn:Es; [discriminate|].
  apply Z.ltb_ge in Es. intros Hd. split; assumption.
Qed.

End LoopFacts.

(** ** The batch orchestrator *)

Section OrchestratorFacts.
Context {E : Externals}.

Lemma metadata_body_Ok n estimate percents pop betas gamma0 i l g l' g' :
  metadata_body n estimate percents pop betas gamma0 (Z.of_nat i) l g
  = Ok (l', g') ->
  g' = g /\
  exists md, slot_metadata n estimate percents pop betas gamma0 i md /\
             l' = l ++ [md].
Proof.
  unfold metadata_body.
  intros (p & g1 & [Hp <-]%lift_Ok &
          (b & g2 & [Hb <-]%lift_Ok & [<- <-]%ret_Ok)%bind_Ok)%bind_Ok.
  apply getitem_of_nat in Hp. apply getitem_of_nat in Hb.
  split; [reflexivity|]. eexists. split; [|reflexivity].
  exists p, b. repeat split; assumption.
Qed.

Lemma metadata_loop_Ok n estimate percents pop betas gamma0 g mds g' :
  for_each (range n)
    (metadata_body n estimate percents pop betas gamma0) [] g = Ok (mds, g') ->
  length mds = Z.to_nat n /\
  forall i md, nth_error mds i = Some md ->
               slot_metadata n estimate percents pop betas gamma0 i md.
Proof.
  intros Hrun. rewrite <- (range_length n).
  apply (for_each_invariant (range n)
           (metadata_body n estimate percents pop betas gamma0)
           (fun i l => length l = i /\
                       forall k md, nth_error l k = Some md ->
                                    slot_metadata n estimate percents pop betas gamma0 k md))
    with (s := []) (g := g) (g' := g'); [| |exact Hrun].
  - intros i x l h l' h' Hx [Hlen Hall] Hbody.
    apply range_nth in Hx. destruct Hx as [-> _].
    apply metadata_body_Ok in Hbody. destruct Hbody as (_ & md & Hmd & ->).
    split; [rewrite length_app; cbn; lia|].
    intros k md' Hk. destruct (Nat.lt_ge_cases k (length l)) as [Hlt|Hge].
    + rewrite nth_error_app1 in Hk by exact Hlt. now apply Hall.
    + rewrite nth_error_app2 in Hk by exact Hge.
      destruct (k - length l)%nat as [|d] eqn:Ed; [|destruct d; discriminate].
      injection Hk as <-. replace k with i by lia. exact Hmd.
  - split; [reflexivity|]. intros k md Hk. destruct k; discriminate.
Qed.

Lemma trajectory_body_Ok fuel vv alpha0 mds j k acc g acc' g' :
  trajectory_body fuel vv alpha0 mds (Z.of_nat j) (Z.of_nat k) acc g
  = Ok (acc', g') ->
  exists md vk observed curve,
    nth_error mds k = Some md /\
    column vv (Z.of_nat k) = Ok vk /\
    generate_observed_SIR_curves fuel (percent_infected md) (pop_size md)
      (beta md) (gamma md) g = Ok ((observed, curve), g') /\
    acc' = (fst acc ++
            [make_trajectory (snd acc) (Z.of_nat j) (Z.of_nat k) md vk alpha0
               observed curve],
            snd acc + 1).
Proof.
  unfold trajectory_body.
  intros (md & g1 & [Hmd <-]%lift_Ok & Hrest)%bind_Ok.
  apply bind_Ok in Hrest. destruct Hrest as ([observed curve] & g2 & Hobs & Hrest).
  apply bind_Ok in Hrest. destruct Hrest as (vk & g3 & [Hvk <-]%lift_Ok & [<- <-]%ret_Ok).
  apply getitem_of_nat in Hmd.
  exists md, vk, observed, curve. repeat split; assumption.
Qed.

(** One simulation: the inner loop appends one trajectory per slot. *)
Lemma epidemic_loop_Ok fuel vv alpha0 mds n j acc g acc' g' :
  for_each (range n) (trajectory_body fuel vv alpha0 mds (Z.of_nat j)) acc g
  = Ok (acc', g') ->
  snd acc = Z.of_nat (j * Z.to_nat n) ->
  length (fst acc) = (j * Z.to_nat n)%nat ->
  built fuel (Z.to_nat n) mds vv alpha0 (fst acc) ->
  snd acc' = Z.of_nat (S j * Z.to_nat n) /\
  length (fst acc') = (S j * Z.to_nat n)%nat /\
  built fuel (Z.to_nat n) mds vv alpha0 (fst acc').
Proof.
  intros Hrun Hid Hlen Hbuilt.
  set (slots := Z.to_nat n) in *.
  assert (Hend :
    snd acc' = Z.of_nat (j * slots + length (range n)) /\
    length (fst acc') = (j * slots + length (range n))%nat /\
    built fuel slots mds vv alpha0 (fst acc')).
  { apply (for_each_invariant (range n)
             (trajectory_body fuel vv alpha0 mds (Z.of_nat j))
             (fun k a => snd a = Z.of_nat (j * slots + k) /\
                         length (fst a) = (j * slots + k)%nat /\
                         built fuel slots mds vv alpha0 (fst a)))
      with (s := acc) (g := g) (g' := g'); [| |exact Hrun].
    - intros k x a h a' h' Hx (Hid' & Hlen' & Hb') Hbody.
      apply range_nth in Hx. destruct Hx as [-> Hk]. fold slots in Hk.
      apply trajectory_body_Ok in Hbody.
      destruct Hbody as (md & vk & observed & curve & Hmd & Hvk & Hobs & ->).
      cbn [fst snd]. split; [lia|]. split; [rewrite length_app; cbn; lia|].
      intros p tr Hp. destruct (Nat.lt_ge_cases p (length (fst a))) as [Hlt|Hge].
      + rewrite nth_error_app1 in Hp by exact Hlt. now apply Hb'.
      + rewrite nth_error_app2 in Hp by exact Hge.
        destruct (p - length (fst a))%nat as [|d] eqn:Ed; [|destruct d; discriminate].
        injection Hp as <-. assert (Hpos : p = (j * slots + k)%nat) by lia.
        assert (Hdiv : (p / slots = j)%nat).
        { rewrite Hpos, Nat.div_add_l by lia. rewrite Nat.div_small by exact Hk. lia. }
        assert (Hmod : (p mod slots = k)%nat).
        { rewrite Hpos, Nat.add_comm, Nat.Div0.mod_add.
          now apply Nat.mod_small. }
        exists md, vk, observed, curve, h, h'.
        rewrite Hdiv, Hmod, Hid', <- Hpos. repeat split; assumption.
    - rewrite !Nat.add_0_r. repeat split; assumption. }
  rewrite range_length in Hend. fold slots in Hend.
  replace (S j * slots)%nat with (j * slots + slots)%nat by lia. exact Hend.
Qed.

(** All simulations: the outer loop. *)
Lemma simulation_loop_Ok fuel vv alpha0 mds n sims g acc' g' :
  for_each (range sims)
    (fun j acc =>
       for_each (range n) (trajectory_body fuel vv alpha0 mds j) acc)
    ([], 0) g = Ok (acc', g') ->
  length (fst acc') = (Z.to_nat sims * Z.to_nat n)%nat /\
  built fuel (Z.to_nat n) mds vv alpha0 (fst acc').
Proof.
  intros Hrun. rewrite <- (range_length sims).
  assert (Hend :
    snd acc' = Z.of_nat (length (range sims) * Z.to_nat n) /\
    length (fst acc') = (length (range sims) * Z.to_nat n)%nat /\
    built fuel (Z.to_nat n) mds vv alpha0 (fst acc')).
  { apply (for_each_invariant (range sims)
             (fun j acc =>
                for_each (range n) (trajectory_body fuel vv alpha0 mds j) acc)
             (fun j a => snd a = Z.of_nat (j * Z.to_nat n) /\
                         length (fst a) = (j * Z.to_nat n)%nat /\
                         built fuel (Z.to_nat n) mds vv alpha0 (fst a)))
      with (s := ([], 0)) (g := g) (g' := g'); [| |exact Hrun].
    - intros j x a h a' h' Hx (Hid & Hlen & Hb) Hbody.
      apply range_nth in Hx. destruct Hx as [-> _].
      eapply epidemic_loop_Ok; eassumption.
    - cbn. repeat split. intros p tr Hp. destruct p; discriminate. }
  split; apply Hend.
Qed.

(** What a returned batch is made of: one call of the beta generator, one
    vector of [percent_infected] draws, one metadata record per slot, and
    one trajectory per simulation and slot, in that order. *)
Lemma generate_SIR_simulations_Ok {P : Type} fuel
  (gen_beta_fn : P -> M (list float * matrix * list float)) params
  sims n gamma0 pop estimate g l g' :
  generate_SIR_simulations fuel gen_beta_fn params sims n gamma0 pop estimate g
  = Ok (l, g') ->
  exists betas vv alpha0 g1 percents g2 mds,
    gen_beta_fn params g = Ok ((betas, vv, alpha0), g1) /\
    np_random_uniform 0.05 1.0 n g1 = Ok (percents, g2) /\
    length mds = Z.to_nat n /\
    (forall i md, nth_error mds i = Some md ->
                  slot_metadata n estimate percents pop betas gamma0 i md) /\
    length l = (Z.to_nat sims * Z.to_nat n)%nat /\
    built fuel (Z.to_nat n) mds vv alpha0 l.
Proof.
  unfold generate_SIR_simulations.
  intros ([[betas vv] alpha0] & g1 & Hgen & Hrest)%bind_Ok.
  apply bind_Ok in Hrest. destruct Hrest as (percents & g2 & Hper & Hrest).
  apply bind_Ok in Hrest. destruct Hrest as (mds & g3 & Hmds & Hrest).
  apply bind_Ok in Hrest. destruct Hrest as (acc & g4 & Hloop & [<- <-]%ret_Ok).
  apply metadata_loop_Ok in Hmds. destruct Hmds as [Hlen Hmd].
  apply simulation_loop_Ok in Hloop. destruct Hloop as [Hcount Hbuilt].
  exists betas, vv, alpha0, g1, percents, g2, mds.
  repeat split; assumption.
Qed.

End OrchestratorFacts.

Section OrchestratorReturns.
Context {E : Externals}.

Lemma metadata_loop_returns n estimate percents pop betas gamma0 g :
  length percents = Z.to_nat n ->
  n <= Z.of_nat (length betas) ->
  exists mds g',
    for_each (range n)
      (metadata_body n estimate percents pop betas gamma0) [] g = Ok (mds, g').
Proof.
  intros Hper Hbet.
  destruct (for_each_returns (range n)
              (metadata_body n estimate percents pop betas gamma0)
              (fun _ _ => True)) with (s := @nil meta_data) (g := g)
    as (mds & g' & Hrun & _); [|exact I|now exists mds, g'].
  intros i x l h Hx _. apply range_nth in Hx. destruct Hx as [-> Hi].
  destruct (nth_error percents i) as [p|] eqn:Ep;
    [|apply nth_error_None in Ep; lia].
  destruct (nth_error betas i) as [b|] eqn:Eb;
    [|apply nth_error_None in Eb; lia].
  apply getitem_of_nat in Ep. apply getitem_of_nat in Eb.
  eexists. exists h. split; [|exact I].
  unfold metadata_body, bind, lift. rewrite Ep, Eb. reflexivity.
Qed.



End OrchestratorReturns.

Section OrchestratorProperties.
Context {E : Externals}.


(** C6.  In every trajectory of a returned batch,
    [cumulative_infections_over_time] is as long as
    [num_new_infections_over_time] and its entry [i] is the sum of the
    entries of that series before index [i]; likewise for the ground truth
    pair. *)
Theorem cumulative_series_exclude_current_day {P : Type} fuel
  (gen_beta_fn : P -> M (list float * matrix * list float)) params
  sims n gamma0 pop estimate g l g' tr :
  generate_SIR_simulations fuel gen_beta_fn params sims n gamma0 pop estimate g
  = Ok (l, g') ->
  In tr l ->
  (length (cumulative_infections_over_time tr)
   = length (num_new_infections_over_time tr) /\
   forall i, (i < length (num_new_infections_over_time tr))%nat ->
     nth_error (cumulative_infections_over_time tr) i
     = Some (np_sum (firstn i (num_new_infections_over_time tr)))) /\
  (length (ground_truth_cumulative_infections_over_time tr)
   = length (ground_truth_infections_over_time tr) /\
   forall i, (i < length (ground_truth_infections_over_time tr))%nat ->
     nth_error (ground_truth_cumulative_infections_over_time tr) i
     = Some (np_sum (firstn i (ground_truth_infections_over_time tr)))).
Proof.
  intros Hrun Hin. apply generate_SIR_simulations_Ok in Hrun.
  destruct Hrun as (betas & vv & alpha0 & g1 & percents & g2 & mds &
                    _ & _ & _ & _ & _ & Hbuilt).
  apply In_nth_error in Hin. destruct Hin as [p Hp].
  destruct (Hbuilt p tr Hp)
    as (md & vk & observed & curve & g0 & g0' & _ & _ & _ & ->).
  cbn [make_trajectory cumulative_infections_over_time
       num_new_infections_over_time
       ground_truth_cumulative_infections_over_time
       ground_truth_infections_over_time].
  split; apply previous_day_cumsum_spec.
Qed.

(** C8.  A returned batch comes from one call of the beta generator and one
    vector of [percent_infected] draws, made before any simulation: every
    trajectory carries the metadata of its slot built from these (the batch
    constants, the slot's draw and the slot's beta), the slot's column of
    [v], and the generator's [alpha].  So two trajectories with the same
    [epidemic_number] have the same metadata, [v] and [alpha]. *)
Theorem replicates_share_slot_data {P : Type} fuel
  (gen_beta_fn : P -> M (list float * matrix * list float)) params
  sims n gamma0 pop estimate g l g' :
  generate_SIR_simulations fuel gen_beta_fn params sims n gamma0 pop estimate g
  = Ok (l, g') ->
  exists betas vv alpha0 g1 percents g2,
    gen_beta_fn params g = Ok ((betas, vv, alpha0), g1) /\
    np_random_uniform 0.05 1.0 n g1 = Ok (percents, g2) /\
    (forall tr, In tr l ->
       0 <= epidemic_number tr /\
       slot_metadata n estimate percents pop betas gamma0
         (Z.to_nat (epidemic_number tr)) (metadata tr) /\
       column vv (epidemic_number tr) = Ok (v tr) /\
       alpha tr = alpha0) /\
    (forall tr1 tr2, In tr1 l -> In tr2 l ->
       epidemic_number tr1 = epidemic_number tr2 ->
       metadata tr1 = metadata tr2 /\ v tr1 = v tr2 /\ alpha tr1 = alpha tr2).
Proof.
  intros Hrun. apply generate_SIR_simulations_Ok in Hrun.
  destruct Hrun as (betas & vv & alpha0 & g1 & percents & g2 & mds &
                    Hgen & Hper & Hlen & Hslots & _ & Hbuilt).
  exists betas, vv, alpha0, g1, percents, g2.
  assert (Hslot : forall tr, In tr l ->
            0 <= epidemic_number tr /\
            nth_error mds (Z.to_nat (epidemic_number tr)) = Some (metadata tr) /\
            column vv (epidemic_number tr) = Ok (v tr) /\
            alpha tr = alpha0).
  { intros tr Hin. apply In_nth_error in Hin. destruct Hin as [p Hp].
    destruct (Hbuilt p tr Hp)
      as (md & vk & observed & curve & g0 & g0' & Hmd & Hvk & _ & ->).
    cbn [make_trajectory epidemic_number metadata v alpha].
    rewrite Nat2Z.id. repeat split; [lia|exact Hmd|exact Hvk]. }
  split; [exact Hgen|]. split; [exact Hper|]. split.
  - intros tr Hin. destruct (Hslot tr Hin) as (Hk & Hmd & Hvk & Hal).
    split; [exact Hk|]. split; [apply Hslots; exact Hmd|].
    split; [exact Hvk|exact Hal].
  - intros tr1 tr2 Hin1 Hin2 Hsame.
    destruct (Hslot tr1 Hin1) as (_ & Hmd1 & Hvk1 & Hal1).
    destruct (Hslot tr2 Hin2) as (_ & Hmd2 & Hvk2 & Hal2).
    rewrite Hsame in Hmd1, Hvk1. rewrite Hmd1 in Hmd2. rewrite Hvk1 in Hvk2.
    repeat split; congruence.
Qed.

End OrchestratorProperties.

(** ** The single-covariate beta generator *)

Section BetaGeneratorProperties.
Context {E : Externals}.

Lemma dot_single (a x : float) : dot [a] [x] = (a * x)%float.
Proof. reflexivity. Qed.

(** C9.  For [n >= 0] and uniform draws within their bounds,
    [generate_betas_from_single_random_covariate n] returns [beta] of length
    [n], [v] with one row of [n] entries, each between 0 and 1, and
    [alpha = [1.0]]; entry [i] of [beta] is [0.4 * exp] of the inner product
    of [alpha] with column [i] of [v], which is [0.4 * exp(v[0, i])]. *)
Theorem single_covariate_betas n g :
  uniform_in_range E ->
  0 <= n ->
  exists betas draws g',
    generate_betas_from_single_random_covariate n g
    = Ok ((betas, {| ncols := n; rows := [draws] |}, [1%float]), g') /\
    length betas = Z.to_nat n /\
    length draws = Z.to_nat n /\
    Forall (fun x => (0 <=? x)%float = true /\ (x <=? 1)%float = true) draws /\
    forall i, (i < Z.to_nat n)%nat ->
      exists x,
        nth_error draws i = Some x /\
        column {| ncols := n; rows := [draws] |} (Z.of_nat i) = Ok [x] /\
        nth_error betas i = Some (0.4 * np_exp (dot [1%float] [x]))%float /\
        nth_error betas i = Some (0.4 * np_exp x)%float.
Proof.
  intros Hrange Hn.
  destruct (uniform_draws_Ok 0 1 (Z.to_nat n) g) as (draws & g' & Hdraws & Hlen).
  set (vv := {| ncols := n; rows := [draws] |}).
  set (products := map (fun i => dot [1%float]
                                   (map (fun r => nth (Z.to_nat i) r 0%float) (rows vv)))
                     (range (ncols vv))).
  exists (map (fun x => (0.4 * np_exp x)%float) products), draws, g'.
  split; [|split; [|split; [|split]]].
  - unfold generate_betas_from_single_random_covariate, bind, np_random_uniform.
    replace (n <? 0) with false by (symmetry; apply Z.ltb_ge; exact Hn).
    rewrite Hdraws. reflexivity.
  - unfold products. now rewrite !length_map, range_length.
  - exact Hlen.
  - eapply uniform_draws_in_range; [exact Hrange|reflexivity|exact Hdraws].
  - intros i Hi.
    destruct (nth_error draws i) as [x|] eqn:Ex;
      [|apply nth_error_None in Ex; lia].
    exists x. split; [reflexivity|].
    assert (Hnth : nth i draws 0%float = x).
    { apply nth_error_nth with (d := 0%float) in Ex. exact Ex. }
    split; [rewrite column_of_nat by (cbn; lia); cbn; now rewrite Hnth|].
    assert (Hbeta : nth_error (map (fun y => (0.4 * np_exp y)%float) products) i
                    = Some (0.4 * np_exp (dot [1%float] [x]))%float).
    { unfold products, range. cbn [ncols rows vv map].
      rewrite !nth_error_map, nth_error_seq.
      replace (i <? Z.to_nat n)%nat with true by (symmetry; apply Nat.ltb_lt; exact Hi).
      cbn [option_map Nat.add]. rewrite Nat2Z.id, Hnth. reflexivity. }
    split; [exact Hbeta|]. rewrite Hbeta, dot_single, float_mul_one_l. reflexivity.
Qed.

End BetaGeneratorProperties.

Lemma demo_batch_returns :
  @generate_SIR_simulations saturated Z 10
    (@generate_betas_from_single_random_covariate saturated) 2
    2 2 0.33 10000 0.5 tt
  = Ok (demo_trajectories, tt).
Proof. vm_compute. reflexivity. Qed.



Lemma cumulative_series_exclude_current_day_witness :
  nth_error (cumulative_infections_over_time (demo_trajectory 0 0 0)) 1 = Some 1 /\
  nth_error (ground_truth_cumulative_infections_over_time (demo_trajectory 0 0 0)) 2
  = Some 10000.
Proof.
  destruct (@cumulative_series_exclude_current_day saturated Z 10
              (@generate_betas_from_single_random_covariate saturated) 2
              2 2 0.33 10000 0.5 tt demo_trajectories tt (demo_trajectory 0 0 0)
              demo_batch_returns (or_introl eq_refl))
    as [[_ Hobs] [_ Htruth]].
  split; [apply (Hobs 1%nat); cbn; lia|apply (Htruth 2%nat); cbn; lia].
Defined.

Lemma replicates_share_slot_data_witness :
  metadata (demo_trajectory 0 0 0) = metadata (demo_trajectory 2 1 0) /\
  v (demo_trajectory 0 0 0) = v (demo_trajectory 2 1 0) /\
  alpha (demo_trajectory 0 0 0) = alpha (demo_trajectory 2 1 0).
Proof.
  destruct (@replicates_share_slot_data saturated Z 10
              (@generate_betas_from_single_random_covariate saturated) 2
              2 2 0.33 10000 0.5 tt demo_trajectories tt demo_batch_returns)
    as (betas & vv & alpha0 & g1 & percents & g2 & _ & _ & _ & Hsame).
  apply Hsame; [left; reflexivity|right; right; left; reflexivity|reflexivity].
Defined.

(** Three scripted uniform draws; the third is outside the unit interval and
    is replaced by the lower bound. *)
Lemma single_covariate_betas_witness :
  exists betas draws g',
    @generate_betas_from_single_random_covariate scripted 3
      ([], [0.25; 0.5; 2]%float)
    = Ok ((betas, {| ncols := 3; rows := [draws] |}, [1%float]), g') /\
    length betas = Z.to_nat 3 /\
    length draws = Z.to_nat 3 /\
    Forall (fun x => (0 <=? x)%float = true /\ (x <=? 1)%float = true) draws /\
    forall i, (i < Z.to_nat 3)%nat ->
      exists x,
        nth_error draws i = Some x /\
        column {| ncols := 3; rows := [draws] |} (Z.of_nat i) = Ok [x] /\
        nth_error betas i
        = Some (0.4 * @np_exp scripted (dot [1%float] [x]))%float /\
        nth_error betas i = Some (0.4 * @np_exp scripted x)%float.
Proof.
  refine (@single_covariate_betas scripted 3 ([], [0.25; 0.5; 2]%float)
            scripted_uniform_in_range _).
  lia.
Defined.

(** * Further properties *)

(** ** The simulator: how an epidemic ends *)


Section SimulatorEnd.
Context {E : Externals}.

(** Whoever was recorded as infected is infected or recovered. *)
Lemma sir_reach_recorded pop b gm g s' g' :
  sir_reach pop b gm (sir_init pop, g) (s', g') ->
  num_infected s' + num_recovered s' = np_sum (list_of_new_infections s').
Proof.
  intros Hr.
  eapply (sir_reach_invariant
            (fun s => num_infected s + num_recovered s
                      = np_sum (list_of_new_infections s)));
    [|exact Hr|reflexivity].
  intros s0 g0 s1 g1 Hsum _ Hs. apply sir_step_Ok in Hs.
  destruct Hs as (p1 & p2 & g1' & nI & nR & _ & _ & _ & ->). cbn.
  rewrite np_sum_app. lia.
Qed.

(** X3.  With binomial draws inside their support and a positive
    population, when [generate_ground_truth_SIR_curve] returns, nobody is
    infected any more, the recovered are exactly the infections recorded in
    the curve, the susceptibles are the rest of the population, and the
    curve totals between 1 and [pop_size]. *)
Theorem epidemic_ends_with_everyone_recovered fuel pop b gm g curve g' :
  binom_in_support E ->
  0 < pop ->
  generate_ground_truth_SIR_curve fuel pop b gm g = Ok (curve, g') ->
  exists s',
    sir_while fuel pop b gm (sir_init pop) g = Ok (s', g') /\
    list_of_new_infections s' = curve /\
    num_infected s' = 0 /\
    num_recovered s' = np_sum curve /\
    num_susceptible s' = pop - np_sum curve /\
    1 <= np_sum curve <= pop.
Proof.
  intros Hsup Hp Hc. unfold generate_ground_truth_SIR_curve in Hc.
  apply bind_Ok in Hc. destruct Hc as (s' & g1 & Hw & [<- <-]%ret_Ok).
  exists s'. split; [exact Hw|]. split; [reflexivity|].
  apply sir_while_reach in Hw. destruct Hw as [Hr Hz].
  pose proof (sir_reach_recorded _ _ _ _ _ _ Hr) as Hrec.
  pose proof (sir_reach_total _ _ _ _ _ _ Hr) as Htot.
  destruct (sir_reach_inv _ _ _ _ _ _ Hsup Hp Hr) as (_ & HS & HI & HR & Hhd & Hall).
  assert (Hone : 1 <= np_sum (list_of_new_infections s')).
  { destruct (list_of_new_infections s') as [|x rest]; [discriminate|].
    injection Hhd as ->. inversion Hall as [|? ? _ Hrest]; subst.
    assert (Hnonneg : Forall (fun y => 0 <= y) rest).
    { eapply Forall_impl; [|exact Hrest]. cbn. intros; lia. }
    pose proof (np_sum_firstn_bounds rest O Hnonneg) as Hb.
    change (np_sum (1 :: rest)) with (1 + np_sum rest). lia. }
  repeat split; lia.
Qed.

(** X4.  A population of 0 divides by zero in the first iteration: the
    simulator raises [ZeroDivisionError], and so does the extractor on its
    first attempt, whatever the other arguments and the draws. *)
Theorem zero_population_raises fuel percent b gm g :
  generate_ground_truth_SIR_curve (S fuel) 0 b gm g = Raise ZeroDivisionError /\
  generate_observed_SIR_curves (S fuel) percent 0 b gm g
  = Raise ZeroDivisionError.
Proof.
  assert (Hsim : generate_ground_truth_SIR_curve (S fuel) 0 b gm g
                 = Raise ZeroDivisionError) by reflexivity.
  split; [exact Hsim|].
  unfold generate_observed_SIR_curves. unfold bind at 1.
  rewrite retry_while_unfold. cbn [retry_start cur_total cur_count].
  change ((0 <? 10) && (0 <? 5000)) with true. cbv iota.
  destruct (Z.to_nat 5000) as [|budget] eqn:Eb; [discriminate|].
  unfold bind at 1. now rewrite Hsim.
Qed.



End SimulatorEnd.


Lemma saturated_curve :
  @generate_ground_truth_SIR_curve saturated 10 10000 0.5 0.33 tt
  = Ok ([1; 9999; 0], tt).
Proof. vm_compute. reflexivity. Qed.

Lemma epidemic_ends_with_everyone_recovered_saturated :
  exists s',
    @sir_while saturated 10 10000 0.5 0.33 (sir_init 10000) tt = Ok (s', tt) /\
    list_of_new_infections s' = [1; 9999; 0] /\
    num_infected s' = 0 /\
    num_recovered s' = np_sum [1; 9999; 0] /\
    num_susceptible s' = 10000 - np_sum [1; 9999; 0] /\
    1 <= np_sum [1; 9999; 0] <= 10000.
Proof.
  refine (@epidemic_ends_with_everyone_recovered saturated 10 10000 0.5 0.33 tt
            _ _ saturated_binom_in_support _ saturated_curve).
  lia.
Defined.


(** ** The extractor: when it returns, and what small populations do *)

Lemma observation_window_defined percent total curve i :
  below_target percent total curve i ->
  exists observed, observation_window percent total curve = Ok observed.
Proof.
  intros Hb. apply below_target_mask in Hb. unfold observation_window.
  destruct (np_max (np_where _)) as [m| |] eqn:Em.
  - cbn [np_max fold_left]. eexists. reflexivity.
  - exfalso. unfold np_max, np_where in Em.
    destruct (where_from 0 _) as [|x l] eqn:Ew; [|discriminate].
    assert (Hin : In (Z.of_nat i) (where_from 0
              (map (fun c => (float_of_Z c <? float_of_Z total * percent)%float)
                 (np_cumsum curve)))).
    { apply where_from_In. rewrite Z.sub_0_r, Nat2Z.id. split; [lia|exact Hb]. }
    rewrite Ew in Hin. destruct Hin.
  - exfalso. unfold np_max in Em. destruct (np_where _); discriminate.
Qed.

Section ExtractorReturns.
Context {E : Externals}.

(** What a returned curve looks like, under draws within their support. *)
Lemma returned_curve_bounds fuel pop b gm g curve g' :
  binom_in_support E ->
  0 < pop ->
  generate_ground_truth_SIR_curve fuel pop b gm g = Ok (curve, g') ->
  hd_error curve = Some 1 /\
  Forall (fun x => 0 <= x <= pop) curve /\
  1 <= np_sum curve <= pop.
Proof.
  intros Hsup Hp Hc. apply generate_ground_truth_SIR_curve_Ok in Hc.
  destruct Hc as (s' & Hr & _ & ->).
  pose proof (sir_reach_total _ _ _ _ _ _ Hr) as Htot.
  destruct (sir_reach_inv _ _ _ _ _ _ Hsup Hp Hr) as (_ & HS & _ & _ & Hhd & Hall).
  split; [exact Hhd|]. split; [exact Hall|].
  destruct (list_of_new_infections s') as [|x rest]; [discriminate|].
  injection Hhd as ->. inversion Hall as [|? ? _ Hrest]; subst.
  assert (Hnonneg : Forall (fun y => 0 <= y) rest).
  { eapply Forall_impl; [|exact Hrest]. cbn. intros; lia. }
  pose proof (np_sum_firstn_bounds rest O Hnonneg) as Hb.
  change (np_sum (1 :: rest)) with (1 + np_sum rest) in *. cbn in Hb. lia.
Qed.

(** X6.  The extractor returns whenever the target size exceeds the seed
    case.  With binomial draws inside their support and a positive
    population: once the rejection loop has settled on a curve (after fewer
    than 5000 rejected attempts, a curve that totals at least 10 or is the
    5000th), and [1 < total_infections * percent_infected] holds in
    binary64, the call returns that curve with an observed window that is a
    prefix of it, of at least 2 entries. *)
Theorem observed_curves_return_when_target_exceeds_seed
  fuel percent pop b gm n g g1 curve g' :
  binom_in_support E ->
  0 < pop ->
  (n < 5000)%nat ->
  rejected (generate_ground_truth_SIR_curve fuel pop b gm) n g g1 ->
  generate_ground_truth_SIR_curve fuel pop b gm g1 = Ok (curve, g') ->
  (10 <= np_sum curve \/ n = 4999%nat) ->
  (float_of_Z 1 <? float_of_Z (np_sum curve) * percent)%float = true ->
  exists observed,
    generate_observed_SIR_curves fuel percent pop b gm g
    = Ok ((observed, curve), g') /\
    (2 <= length observed <= length curve)%nat /\
    observed = firstn (length observed) curve.
Proof.
  intros Hsup Hp Hn Hrej Hsim Hstop Hseed.
  destruct (returned_curve_bounds _ _ _ _ _ _ _ Hsup Hp Hsim) as (Hhd & _ & _).
  pose proof (ground_truth_curve_length _ _ _ _ _ _ _ Hsim) as Hlen.
  assert (Hday : below_target percent (np_sum curve) curve O).
  { split; [lia|]. destruct curve as [|x rest]; [discriminate|].
    injection Hhd as ->. exact Hseed. }
  destruct (observation_window_defined _ _ _ _ Hday) as (observed & Hw).
  exists observed. split.
  - rewrite (generate_observed_SIR_curves_complete
               fuel percent pop b gm n g g1 curve g' Hn Hrej Hsim Hstop).
    now rewrite Hw.
  - apply observation_window_Ok in Hw.
    destruct Hw as (last & [Hlast _] & _ & ->).
    rewrite length_firstn. split; [lia|].
    f_equal. lia.
Qed.

(** X7.  A population below 10 can never reach the threshold of 10
    infections: with binomial draws inside their support, whatever
    [generate_observed_SIR_curves] returns for [0 < pop_size < 10] comes
    from the 5000th attempt, after 4999 rejected ones, and totals at most
    [pop_size]. *)
Theorem small_population_exhausts_the_attempts
  fuel percent pop b gm g observed curve g' :
  binom_in_support E ->
  0 < pop < 10 ->
  generate_observed_SIR_curves fuel percent pop b gm g
  = Ok ((observed, curve), g') ->
  np_sum curve <= pop /\
  exists g1,
    rejected (generate_ground_truth_SIR_curve fuel pop b gm) 4999 g g1 /\
    generate_ground_truth_SIR_curve fuel pop b gm g1 = Ok (curve, g').
Proof.
  intros Hsup Hp Hobs. apply generate_observed_SIR_curves_Ok in Hobs.
  destruct Hobs as (_ & n & g1 & _ & Hrej & Hsim & Hstop).
  destruct (returned_curve_bounds fuel pop b gm g1 curve g' Hsup (proj1 Hp) Hsim)
    as (_ & _ & Hsum).
  split; [lia|]. destruct Hstop as [Hstop|Hlast]; [lia|]. subst n.
  exists g1. split; assumption.
Qed.

End ExtractorReturns.

Lemma observed_curves_return_at_75_percent :
  exists observed,
    @generate_observed_SIR_curves scripted 100 0.75 10000 0.5 0.33 five_step_tape
    = Ok ((observed, [1; 2; 3; 4; 5; 0]), ([], [])) /\
    (2 <= length observed <= length [1; 2; 3; 4; 5; 0])%nat /\
    observed = firstn (length observed) [1; 2; 3; 4; 5; 0].
Proof.
  refine (@observed_curves_return_when_target_exceeds_seed scripted
            100 0.75 10000 0.5 0.33 O five_step_tape five_step_tape _ _
            scripted_binom_in_support _ _ (@rejected_none scripted _ _)
            five_step_curve _ _).
  - lia.
  - lia.
  - left. cbn. lia.
  - vm_compute. reflexivity.
Defined.

Lemma saturated_population_of_five :
  @generate_observed_SIR_curves saturated 10 0.5 5 0.5 0.33 tt
  = Ok (([1; 4], [1; 4; 0]), tt).
Proof. vm_compute. reflexivity. Qed.

Lemma small_population_exhausts_the_attempts_at_five :
  np_sum [1; 4; 0] <= 5 /\
  exists g1,
    @rejected saturated (@generate_ground_truth_SIR_curve saturated 10 5 0.5 0.33)
      4999 tt g1 /\
    @generate_ground_truth_SIR_curve saturated 10 5 0.5 0.33 g1
    = Ok ([1; 4; 0], tt).
Proof.
  refine (@small_population_exhausts_the_attempts saturated 10 0.5 5 0.5 0.33 tt
            _ _ _ saturated_binom_in_support _ saturated_population_of_five).
  lia.
Defined.

(** ** The orchestrator: what every trajectory of a batch satisfies *)

Section BatchTrajectories.
Context {E : Externals}.

(** X8.  In every trajectory of a returned batch the observed series is a
    prefix of the ground truth, of at least 2 entries; [t] and
    [ground_truth_t] count the entries of their series from 0;
    [total_infections] is the sum of the ground truth and
    [estimated_infections] the observed sum over the estimate fraction; and
    the metadata carries the batch constants and the trajectory's own
    [epidemic_number] as [epidemic_id]. *)
Theorem trajectory_is_consistent {P : Type} fuel
  (gen_beta_fn : P -> M (list float * matrix * list float)) params
  sims n gamma0 pop estimate g l g' tr :
  generate_SIR_simulations fuel gen_beta_fn params sims n gamma0 pop estimate g
  = Ok (l, g') ->
  In tr l ->
  num_new_infections_over_time tr
  = firstn (length (num_new_infections_over_time tr))
      (ground_truth_infections_over_time tr) /\
  (2 <= length (num_new_infections_over_time tr)
   <= length (ground_truth_infections_over_time tr))%nat /\
  t tr = range (Z.of_nat (length (num_new_infections_over_time tr))) /\
  ground_truth_t tr
  = range (Z.of_nat (length (ground_truth_infections_over_time tr))) /\
  total_infections tr = np_sum (ground_truth_infections_over_time tr) /\
  estimated_infections tr
  = (float_of_Z (np_sum (num_new_infections_over_time tr)) / estimate)%float /\
  epidemic_id (metadata tr) = epidemic_number tr /\
  num_epidemics (metadata tr) = n /\
  frac_estimate_of_total (metadata tr) = estimate /\
  pop_size (metadata tr) = pop /\
  gamma (metadata tr) = gamma0.
Proof.
  intros Hrun Hin. apply generate_SIR_simulations_Ok in Hrun.
  destruct Hrun as (betas & vv & alpha0 & g1 & percents & g2 & mds &
                    _ & _ & _ & Hslots & _ & Hbuilt).
  apply In_nth_error in Hin. destruct Hin as [p Hp].
  destruct (Hbuilt p tr Hp)
    as (md & vk & observed & curve & g0 & g0' & Hmd & _ & Hobs & ->).
  destruct (Hslots _ _ Hmd) as (pc & bt & _ & _ & ->).
  apply generate_observed_SIR_curves_Ok in Hobs.
  destruct Hobs as (Hw & k & g3 & _ & _ & Hsim & _).
  apply ground_truth_curve_length in Hsim.
  apply observation_window_Ok in Hw. destruct Hw as (last & [Hlast _] & _ & Hcut).
  assert (Hlen : length observed = Nat.max last 2).
  { rewrite Hcut, length_firstn. lia. }
  cbn. repeat split; try reflexivity; try lia.
  rewrite Hlen. exact Hcut.
Qed.

End BatchTrajectories.

Lemma Forall_prefix {A} (Q : A -> Prop) (l : list A) (k : nat) :
  Forall Q l -> Forall Q (firstn k l).
Proof.
  intros Hall. revert k. induction Hall as [|x l Hx Hall IH]; intros k.
  - destruct k; constructor.
  - destruct k; cbn; constructor; [exact Hx|apply IH].
Qed.

Section BatchBounds.
Context {E : Externals}.

(** X9.  With binomial draws inside their support, uniform draws within
    their bounds and a positive population, every trajectory of a returned
    batch has a ground truth that starts with 1, counts between 0 and
    [pop_size] in both series, a total between 1 and [pop_size], and a
    [percent_infected] between 0.05 and 1. *)
Theorem trajectory_counts_are_bounded {P : Type} fuel
  (gen_beta_fn : P -> M (list float * matrix * list float)) params
  sims n gamma0 pop estimate g l g' tr :
  binom_in_support E ->
  uniform_in_range E ->
  0 < pop ->
  generate_SIR_simulations fuel gen_beta_fn params sims n gamma0 pop estimate g
  = Ok (l, g') ->
  In tr l ->
  hd_error (ground_truth_infections_over_time tr) = Some 1 /\
  Forall (fun x => 0 <= x <= pop) (ground_truth_infections_over_time tr) /\
  Forall (fun x => 0 <= x <= pop) (num_new_infections_over_time tr) /\
  1 <= total_infections tr <= pop /\
  (0.05 <=? percent_infected (metadata tr))%float = true /\
  (percent_infected (metadata tr) <=? 1)%float = true.
Proof.
  intros Hsup Hrange Hpop Hrun Hin. apply generate_SIR_simulations_Ok in Hrun.
  destruct Hrun as (betas & vv & alpha0 & g1 & percents & g2 & mds &
                    _ & Hper & _ & Hslots & _ & Hbuilt).
  apply In_nth_error in Hin. destruct Hin as [p Hp].
  destruct (Hbuilt p tr Hp)
    as (md & vk & observed & curve & g0 & g0' & Hmd & _ & Hobs & ->).
  destruct (Hslots _ _ Hmd) as (pc & bt & Hpc & _ & ->).
  cbn [percent_infected pop_size beta gamma] in Hobs.
  apply generate_observed_SIR_curves_Ok in Hobs.
  destruct Hobs as (Hw & k & g3 & _ & _ & Hsim & _).
  destruct (returned_curve_bounds fuel pop bt gamma0 g3 curve g0' Hsup Hpop Hsim)
    as (Hhd & Hall & Hsum).
  apply observation_window_Ok in Hw. destruct Hw as (last & _ & _ & ->).
  apply np_random_uniform_Ok in Hper. destruct Hper as [_ Hdraws].
  assert (Hle : (0.05 <=? 1)%float = true) by reflexivity.
  pose proof (uniform_draws_in_range 0.05 1 (Z.to_nat n) g1 percents g2
                Hrange Hle Hdraws) as Hin.
  rewrite Forall_forall in Hin. specialize (Hin pc (nth_error_In _ _ Hpc)).
  cbn. repeat split; try assumption; try lia; try apply Hin.
  apply Forall_prefix. exact Hall.
Qed.

End BatchBounds.

Lemma trajectory_counts_are_bounded_demo :
  hd_error (ground_truth_infections_over_time (demo_trajectory 0 0 0)) = Some 1 /\
  Forall (fun x => 0 <= x <= 10000)
    (ground_truth_infections_over_time (demo_trajectory 0 0 0)) /\
  Forall (fun x => 0 <= x <= 10000)
    (num_new_infections_over_time (demo_trajectory 0 0 0)) /\
  1 <= total_infections (demo_trajectory 0 0 0) <= 10000 /\
  (0.05 <=? percent_infected (metadata (demo_trajectory 0 0 0)))%float = true /\
  (percent_infected (metadata (demo_trajectory 0 0 0)) <=? 1)%float = true.
Proof.
  refine (@trajectory_counts_are_bounded saturated Z 10
            (@generate_betas_from_single_random_covariate saturated) 2
            2 2 0.33 10000 0.5 tt demo_trajectories tt (demo_trajectory 0 0 0)
            saturated_binom_in_support saturated_uniform_in_range _
            demo_batch_returns (or_introl eq_refl)).
  lia.
Defined.

Lemma trajectory_is_consistent_demo :
  num_new_infections_over_time (demo_trajectory 0 0 0)
  = firstn (length (num_new_infections_over_time (demo_trajectory 0 0 0)))
      (ground_truth_infections_over_time (demo_trajectory 0 0 0)) /\
  (2 <= length (num_new_infections_over_time (demo_trajectory 0 0 0))
   <= length (ground_truth_infections_over_time (demo_trajectory 0 0 0)))%nat.
Proof.
  destruct (@trajectory_is_consistent saturated Z 10
              (@generate_betas_from_single_random_covariate saturated) 2
              2 2 0.33 10000 0.5 tt demo_trajectories tt (demo_trajectory 0 0 0)
              demo_batch_returns (or_introl eq_refl)) as (Hprefix & Hlen & _).
  split; [exact Hprefix|exact Hlen].
Defined.

(** ** The orchestrator: errors and empty batches *)

Lemma getitem_past_the_end {A} (a : list A) :
  getitem a (Z.of_nat (length a)) = Raise IndexError.
Proof.
  unfold getitem.
  replace (Z.of_nat (length a) <? 0) with false by (symmetry; apply Z.ltb_ge; lia).
  rewrite Z.ltb_irrefl, andb_false_r. reflexivity.
Qed.

Section BatchErrors.
Context {E : Externals}.

Lemma for_each_app {A S : Type} (xs ys : list A) (body : A -> S -> M S) s g :
  for_each (xs ++ ys) body s g
  = match for_each xs body s g with
    | Ok (s', g') => for_each ys body s' g'
    | Raise e => Raise e
    | OutOfFuel => OutOfFuel
    end.
Proof.
  revert s g. induction xs as [|x xs IH]; intros s g; [reflexivity|].
  cbn [app for_each]. unfold bind.
  destruct (body x s g) as [[s1 g1]|e|]; [apply IH|reflexivity|reflexivity].
Qed.

Lemma metadata_body_rng n estimate percents pop betas gamma0 i l g l' g' :
  metadata_body n estimate percents pop betas gamma0 i l g = Ok (l', g') ->
  g' = g.
Proof.
  unfold metadata_body.
  intros (p & g1 & [_ <-]%lift_Ok &
          (b & g2 & [_ <-]%lift_Ok & [_ <-]%ret_Ok)%bind_Ok)%bind_Ok.
  reflexivity.
Qed.

(** Building the metadata draws nothing. *)
Lemma metadata_loop_rng n estimate percents pop betas gamma0 xs l g l' g' :
  for_each xs (metadata_body n estimate percents pop betas gamma0) l g
  = Ok (l', g') ->
  g' = g.
Proof.
  revert l g. induction xs as [|x xs IH]; intros l g; cbn [for_each].
  - now intros [_ <-]%ret_Ok.
  - intros (l1 & g1 & Hb & Hrest)%bind_Ok.
    apply metadata_body_rng in Hb. apply IH in Hrest. congruence.
Qed.

Lemma metadata_prefix_returns n estimate percents pop betas gamma0 k g :
  (k <= length percents)%nat ->
  (k <= length betas)%nat ->
  exists mds g',
    for_each (map Z.of_nat (seq 0 k))
      (metadata_body n estimate percents pop betas gamma0) [] g = Ok (mds, g').
Proof.
  intros Hper Hbet.
  destruct (for_each_returns (map Z.of_nat (seq 0 k))
              (metadata_body n estimate percents pop betas gamma0)
              (fun _ _ => True)) with (s := @nil meta_data) (g := g)
    as (mds & g' & Hrun & _); [|exact I|now exists mds, g'].
  intros i x l h Hx _. rewrite nth_error_map, nth_error_seq in Hx.
  destruct (i <? k)%nat eqn:Ei; [|discriminate]. apply Nat.ltb_lt in Ei.
  cbn in Hx. injection Hx as <-.
  destruct (nth_error percents i) as [p|] eqn:Ep;
    [|apply nth_error_None in Ep; lia].
  destruct (nth_error betas i) as [b|] eqn:Eb;
    [|apply nth_error_None in Eb; lia].
  apply getitem_of_nat in Ep. apply getitem_of_nat in Eb.
  eexists. exists h. split; [|exact I].
  unfold metadata_body, bind, lift. rewrite Ep, Eb. reflexivity.
Qed.

(** X10.  Once the beta generator has returned, a negative
    [num_epidemics] makes [generate_SIR_simulations] raise [ValueError]
    (the size of the [percent_infected] draw), and a generator result with
    fewer betas than [num_epidemics] makes it raise [IndexError] while the
    metadata are built. *)
Theorem batch_refuses_bad_slot_counts {P : Type} fuel
  (gen_beta_fn : P -> M (list float * matrix * list float)) params
  sims n gamma0 pop estimate g betas vv alpha0 g1 :
  gen_beta_fn params g = Ok ((betas, vv, alpha0), g1) ->
  (n < 0 ->
   generate_SIR_simulations fuel gen_beta_fn params sims n gamma0 pop estimate g
   = Raise ValueError) /\
  (Z.of_nat (length betas) < n ->
   generate_SIR_simulations fuel gen_beta_fn params sims n gamma0 pop estimate g
   = Raise IndexError).
Proof.
  intros Hgen. split; intros Hn; unfold generate_SIR_simulations;
    unfold bind at 1; rewrite Hgen.
  - unfold bind at 1. unfold np_random_uniform.
    replace (n <? 0) with true by (symmetry; apply Z.ltb_lt; exact Hn).
    reflexivity.
  - unfold bind at 1. unfold np_random_uniform.
    replace (n <? 0) with false by (symmetry; apply Z.ltb_ge; lia).
    destruct (uniform_draws_Ok 0.05 1 (Z.to_nat n) g1)
      as (percents & g2 & Hdraws & Hlen).
    rewrite Hdraws. unfold bind at 1.
    set (m := length betas) in *.
    assert (Hsplit : range n
                     = map Z.of_nat (seq 0 m)
                       ++ Z.of_nat m :: map Z.of_nat (seq (S m) (Z.to_nat n - S m))).
    { unfold range. replace (Z.to_nat n) with (m + S (Z.to_nat n - S m))%nat at 1 by lia.
      rewrite seq_app, map_app. reflexivity. }
    rewrite Hsplit, for_each_app.
    destruct (metadata_prefix_returns n estimate percents pop betas gamma0 m g2)
      as (mds & g3 & Hprefix); [lia|lia|].
    rewrite Hprefix. cbn [for_each]. unfold bind at 1.
    assert (Hbody : metadata_body n estimate percents pop betas gamma0
                      (Z.of_nat m) mds g3 = Raise IndexError).
    { destruct (nth_error percents m) as [p|] eqn:Ep;
        [|apply nth_error_None in Ep; lia].
      apply getitem_of_nat in Ep.
      unfold metadata_body, bind, lift. rewrite Ep.
      unfold m. rewrite getitem_past_the_end. reflexivity. }
    rewrite Hbody. reflexivity.
Qed.

(** X11.  With no simulation to run ([num_simulations <= 0]) and betas for
    every slot, [generate_SIR_simulations] returns the empty batch, and the
    random generator is left as the [percent_infected] draws left it: no
    curve is simulated. *)
Theorem no_simulations_give_an_empty_batch {P : Type} fuel
  (gen_beta_fn : P -> M (list float * matrix * list float)) params
  sims n gamma0 pop estimate g betas vv alpha0 g1 percents g2 :
  gen_beta_fn params g = Ok ((betas, vv, alpha0), g1) ->
  np_random_uniform 0.05 1.0 n g1 = Ok (percents, g2) ->
  n <= Z.of_nat (length betas) ->
  sims <= 0 ->
  generate_SIR_simulations fuel gen_beta_fn params sims n gamma0 pop estimate g
  = Ok ([], g2).
Proof.
  intros Hgen Hper Hbet Hsims.
  pose proof (np_random_uniform_Ok _ _ _ _ _ _ Hper) as [Hn Hdraws].
  apply uniform_draws_length in Hdraws.
  destruct (metadata_loop_returns n estimate percents pop betas gamma0 g2 Hdraws Hbet)
    as (mds & g3 & Hmds).
  pose proof (metadata_loop_rng _ _ _ _ _ _ _ _ _ _ _ Hmds) as ->.
  unfold generate_SIR_simulations, bind. rewrite Hgen, Hper, Hmds.
  unfold range at 1. replace (Z.to_nat sims) with O by lia. reflexivity.
Qed.

End BatchErrors.

Lemma batch_refuses_bad_slot_counts_saturated :
  (3 < 0 ->
   @generate_SIR_simulations saturated Z 10
     (@generate_betas_from_single_random_covariate saturated) 2
     2 3 0.33 10000 0.5 tt = Raise ValueError) /\
  (Z.of_nat (length [0.4; 0.4]%float) < 3 ->
   @generate_SIR_simulations saturated Z 10
     (@generate_betas_from_single_random_covariate saturated) 2
     2 3 0.33 10000 0.5 tt = Raise IndexError).
Proof.
  apply (@batch_refuses_bad_slot_counts saturated Z 10
           (@generate_betas_from_single_random_covariate saturated) 2
           2 3 0.33 10000 0.5 tt [0.4; 0.4]%float
           {| ncols := 2; rows := [[0; 0]%float] |} [1%float] tt).
  vm_compute. reflexivity.
Defined.

Lemma no_simulations_give_an_empty_batch_saturated :
  @generate_SIR_simulations saturated Z 10
    (@generate_betas_from_single_random_covariate saturated) 2
    0 2 0.33 10000 0.5 tt = Ok ([], tt).
Proof.
  apply (@no_simulations_give_an_empty_batch saturated Z 10
           (@generate_betas_from_single_random_covariate saturated) 2
           0 2 0.33 10000 0.5 tt [0.4; 0.4]%float
           {| ncols := 2; rows := [[0; 0]%float] |} [1%float] tt
           [0.05; 0.05]%float tt).
  - vm_compute. reflexivity.
  - vm_compute. reflexivity.
  - cbn. lia.
  - lia.
Defined.

(** ** Binary64: products commute *)

Lemma SF64mul_comm (x y : spec_float) : SF64mul x y = SF64mul y x.
Proof.
  unfold SF64mul, SFmul.
  destruct x as [sx|sx| |sx mx ex], y as [sy|sy| |sy my ey];
    try reflexivity; try (now rewrite xorb_comm).
  now rewrite xorb_comm, Pos.mul_comm, Z.add_comm.
Qed.

Lemma float_mul_comm (x y : float) : (x * y)%float = (y * x)%float.
Proof.
  apply Prim2SF_inj. rewrite !FloatAxioms.mul_spec. apply SF64mul_comm.
Qed.

Lemma float_mul_one_r (x : float) : (x * 1)%float = x.
Proof. rewrite float_mul_comm. apply float_mul_one_l. Qed.

(** ** The orchestrator on the single-covariate generator *)

Lemma map_nth_seq {A B} (h : A -> B) (l : list A) (d : A) :
  map (fun i => h (nth i l d)) (seq 0 (length l)) = map h l.
Proof.
  induction l as [|a l IH]; [reflexivity|].
  cbn [length seq map nth]. f_equal.
  rewrite <- seq_shift, map_map. exact IH.
Qed.

Section SingleCovariateBatch.
Context {E : Externals}.

(** What the single-covariate generator returns, in terms of its draws. *)
Lemma single_covariate_Ok n g betas vv alpha0 g' :
  generate_betas_from_single_random_covariate n g = Ok ((betas, vv, alpha0), g') ->
  0 <= n /\
  exists draws,
    uniform_draws 0 1 (Z.to_nat n) g = Ok (draws, g') /\
    vv = {| ncols := n; rows := [draws] |} /\
    alpha0 = [1%float] /\
    betas = map (fun x => (0.4 * np_exp x)%float) draws.
Proof.
  unfold generate_betas_from_single_random_covariate.
  intros (draws & g1 & Hper & Hrest)%bind_Ok.
  apply np_random_uniform_Ok in Hper. destruct Hper as [Hn Hdraws].
  apply bind_Ok in Hrest. destruct Hrest as (products & g2 & Hm & Hret).
  apply lift_Ok in Hm. destruct Hm as [Hm <-].
  apply ret_Ok in Hret. destruct Hret as [[= <- <- <-] <-].
  split; [exact Hn|]. exists draws. repeat split; [exact Hdraws|].
  unfold np_matmul in Hm. cbn [rows ncols length Nat.eqb] in Hm.
  injection Hm as <-.
  pose proof (uniform_draws_length _ _ _ _ _ _ Hdraws) as Hlen.
  unfold range. rewrite <- Hlen, !map_map.
  rewrite <- (map_nth_seq (fun x => (0.4 * np_exp x)%float) draws 0%float).
  apply map_ext. intros i. cbn [map]. rewrite Nat2Z.id.
  now rewrite dot_single, float_mul_one_l.
Qed.

(** X12.  A batch built on [generate_betas_from_single_random_covariate]
    for the same number of epidemics ties each trajectory to its covariate:
    [alpha] is [1.0], [v] holds the one covariate of the slot, between 0 and
    1 when the uniform draws keep their bounds, and the [beta] of the
    metadata, which the curves of the slot were simulated with, is
    [0.4 * exp] of that covariate. *)
Theorem single_covariate_batch_ties_beta_to_covariate
  fuel sims n gamma0 pop estimate g l g' tr :
  uniform_in_range E ->
  generate_SIR_simulations fuel generate_betas_from_single_random_covariate n
    sims n gamma0 pop estimate g = Ok (l, g') ->
  In tr l ->
  alpha tr = [1%float] /\
  exists x,
    v tr = [x] /\
    (0 <=? x)%float = true /\ (x <=? 1)%float = true /\
    beta (metadata tr) = (0.4 * np_exp x)%float.
Proof.
  intros Hrange Hrun Hin. apply generate_SIR_simulations_Ok in Hrun.
  destruct Hrun as (betas & vv & alpha0 & g1 & percents & g2 & mds &
                    Hgen & _ & _ & Hslots & _ & Hbuilt).
  apply single_covariate_Ok in Hgen.
  destruct Hgen as (Hn & draws & Hdraws & -> & -> & ->).
  apply In_nth_error in Hin. destruct Hin as [p Hp].
  destruct (Hbuilt p tr Hp)
    as (md & vk & observed & curve & g0 & g0' & Hmd & Hvk & _ & ->).
  destruct (Hslots _ _ Hmd) as (pc & bt & _ & Hbt & ->).
  cbn [make_trajectory alpha v metadata beta].
  split; [reflexivity|].
  rewrite nth_error_map in Hbt.
  destruct (nth_error draws (p mod Z.to_nat n)) as [x|] eqn:Ex; [|discriminate].
  injection Hbt as <-. exists x.
  assert (Hk : (p mod Z.to_nat n < length draws)%nat)
    by (apply nth_error_Some; congruence).
  pose proof (uniform_draws_length _ _ _ _ _ _ Hdraws) as Hlen.
  rewrite column_of_nat in Hvk by (cbn; lia). cbn in Hvk. injection Hvk as <-.
  assert (Hle : (0 <=? 1)%float = true) by reflexivity.
  pose proof (uniform_draws_in_range 0 1 (Z.to_nat n) g draws g1
                Hrange Hle Hdraws) as Hall.
  rewrite Forall_forall in Hall. specialize (Hall x (nth_error_In _ _ Ex)).
  rewrite (nth_error_nth _ _ 0%float Ex).
  repeat split; try reflexivity; apply Hall.
Qed.

End SingleCovariateBatch.

Lemma single_covariate_batch_demo :
  alpha (demo_trajectory 0 0 0) = [1%float] /\
  exists x,
    v (demo_trajectory 0 0 0) = [x] /\
    (0 <=? x)%float = true /\ (x <=? 1)%float = true /\
    beta (metadata (demo_trajectory 0 0 0)) = (0.4 * @np_exp saturated x)%float.
Proof.
  exact (@single_covariate_batch_ties_beta_to_covariate saturated 10
           2 2 0.33 10000 0.5 tt demo_trajectories tt (demo_trajectory 0 0 0)
           saturated_uniform_in_range demo_batch_returns (or_introl eq_refl)).
Defined.

(** ** The many-covariates generator *)

Section ManyCovariatesProperties.
Context {E : Externals}.

Lemma uniform_rows_Ok low high nrows k g :
  exists drawn g',
    uniform_rows low high nrows k g = Ok (drawn, g') /\
    length drawn = nrows /\
    Forall (fun row => length row = k) drawn.
Proof.
  revert g. induction nrows as [|nrows IH]; intros g.
  - exists [], g. repeat split. constructor.
  - destruct (uniform_draws_Ok low high k g) as (row & g1 & Hrow & Hlen).
    destruct (IH g1) as (rest & g' & Hrest & Hcount & Hall).
    exists (row :: rest), g'. split; [|split].
    + cbn [uniform_rows]. unfold bind. rewrite Hrow, Hrest. reflexivity.
    + cbn. now rewrite Hcount.
    + constructor; assumption.
Qed.



(** X14.  A negative count makes [generate_betas_many_cov2] raise
    [ValueError]: a negative array dimension in the covariate draw, or a
    negative length of the ones or of the zeros. *)
Theorem many_covariates_refuse_negative_counts n num_pred num_not_pred g :
  n < 0 \/ num_pred < 0 \/ num_not_pred < 0 ->
  generate_betas_many_cov2 n num_pred num_not_pred g = Raise ValueError.
Proof.
  intros Hneg.
  unfold generate_betas_many_cov2, np_random_uniform_2d. unfold bind at 1.
  destruct ((num_pred + num_not_pred <? 0) || (n <? 0)) eqn:Edims; [reflexivity|].
  apply orb_false_iff in Edims. destruct Edims as [Esum En].
  apply Z.ltb_ge in Esum. apply Z.ltb_ge in En.
  destruct (uniform_rows_Ok (-1) 1 (Z.to_nat (num_pred + num_not_pred))
              (Z.to_nat n) g) as (drawn & g' & Hdrawn & _).
  unfold bind at 1. rewrite Hdrawn. unfold ret at 1.
  unfold bind at 1, lift at 1, np_ones.
  destruct (num_pred <? 0) eqn:Epred; [reflexivity|].
  apply Z.ltb_ge in Epred.
  unfold bind at 1, lift at 1, np_zeros.
  replace (num_not_pred <? 0) with true by (symmetry; apply Z.ltb_lt; lia).
  reflexivity.
Qed.

End ManyCovariatesProperties.


Lemma many_covariates_refuse_negative_counts_scripted :
  @generate_betas_many_cov2 scripted 2 (-1) 3 ([], []) = Raise ValueError.
Proof.
  apply (@many_covariates_refuse_negative_counts scripted 2 (-1) 3 ([], [])).
  right. left. lia.
Defined.

(** ** Binary64: zero and positive finite values *)

Lemma float_pos_finite_spec (x : float) :
  float_pos_finite x -> exists m e, Prim2SF x = S754_finite false m e.
Proof.
  unfold float_pos_finite. rewrite !FloatAxioms.ltb_spec.
  change (Prim2SF 0) with (S754_zero false).
  change (Prim2SF infinity) with (S754_infinity false).
  destruct (Prim2SF x) as [s|s| |s m e]; cbn; intros [H0 Hinf];
    try discriminate; destruct s; try discriminate.
  now exists m, e.
Qed.

Lemma float_mul_zero_r (x : float) : float_pos_finite x -> (x * 0)%float = 0%float.
Proof.
  intros Hx. destruct (float_pos_finite_spec x Hx) as (m & e & Hm).
  apply Prim2SF_inj. rewrite FloatAxioms.mul_spec, Hm. reflexivity.
Qed.

Lemma float_add_zero_r (x : float) : float_pos_finite x -> (x + 0)%float = x.
Proof.
  intros Hx. destruct (float_pos_finite_spec x Hx) as (m & e & Hm).
  apply Prim2SF_inj. rewrite FloatAxioms.add_spec, Hm. reflexivity.
Qed.

(** ** The effect-modification generator *)

Section EffectModificationProperties.
Context {E : Externals}.
Variable np_random_binomial : Z -> float -> rng -> Z * rng.
Variable np_log : float -> float.

(** The beta of one epidemic takes two values: the elevated one exactly for
    a first covariate of 1 with a second covariate of 0. *)
Lemma effect_beta_values (h w : Z) :
  float_pos_finite (np_log 1.5) ->
  float_pos_finite (np_log 2) ->
  effect_beta np_log h w
  = if (h =? 1) && (w =? 0) then np_exp (np_log 1.5 + np_log 2)%float
    else np_exp (np_log 1.5).
Proof.
  intros H15 H2. unfold effect_beta, float_of_bool.
  destruct (h =? 1), (w =? 0); cbn [andb].
  - now rewrite !float_mul_one_r.
  - now rewrite float_mul_one_r, (float_mul_zero_r _ H2), (float_add_zero_r _ H15).
  - rewrite (float_mul_zero_r _ H2).
    change (0 * 1)%float with 0%float. now rewrite (float_add_zero_r _ H15).
  - rewrite (float_mul_zero_r _ H2).
    change (0 * 0)%float with 0%float. now rewrite (float_add_zero_r _ H15).
Qed.

Lemma binomial_draws_Ok n p k g :
  (forall g0, 0 <= fst (np_random_binomial n p g0) <= n) ->
  exists xs g',
    binomial_draws np_random_binomial n p k g = Ok (xs, g') /\
    length xs = k /\ Forall (fun x => 0 <= x <= n) xs.
Proof.
  intros Hsup. revert g. induction k as [|k IH]; intros g.
  - exists [], g. repeat split. constructor.
  - destruct (np_random_binomial n p g) as [x g1] eqn:Ex.
    destruct (IH g1) as (xs & g' & Hxs & Hlen & Hall).
    exists (x :: xs), g'. split; [|split].
    + cbn [binomial_draws]. unfold bind. rewrite Ex, Hxs. reflexivity.
    + cbn. now rewrite Hlen.
    + constructor; [|exact Hall]. specialize (Hsup g). now rewrite Ex in Hsup.
Qed.

(** X15.  For [num_epidemics >= 0], binomial draws inside their support and
    a logarithm that is positive and finite at 1.5 and at 2,
    [generate_betas_effect_mod] returns two rows of [num_epidemics]
    covariates, each 0 or 1, an empty weight vector, and one beta per
    epidemic: [exp(log 1.5 + log 2)] where the first covariate is 1 and the
    second is 0, and [exp(log 1.5)] everywhere else. *)
Theorem effect_modification_betas n g :
  (forall m p g0, 0 <= m -> 0 <= fst (np_random_binomial m p g0) <= m) ->
  float_pos_finite (np_log 1.5) ->
  float_pos_finite (np_log 2) ->
  0 <= n ->
  exists betas hd ws g',
    generate_betas_effect_mod np_random_binomial np_log n g
    = Ok ((betas, [hd; ws], []), g') /\
    length hd = Z.to_nat n /\ length ws = Z.to_nat n /\
    length betas = Z.to_nat n /\
    Forall (fun x => x = 0 \/ x = 1) hd /\
    Forall (fun x => x = 0 \/ x = 1) ws /\
    forall i h w,
      nth_error hd i = Some h -> nth_error ws i = Some w ->
      nth_error betas i
      = Some (if (h =? 1) && (w =? 0) then np_exp (np_log 1.5 + np_log 2)%float
              else np_exp (np_log 1.5)).
Proof.
  intros Hsup H15 H2 Hn.
  assert (Hone : forall g0, 0 <= fst (np_random_binomial 1 0.5 g0) <= 1)
    by (intros g0; apply Hsup; lia).
  destruct (binomial_draws_Ok 1 0.5 (Z.to_nat n) g Hone)
    as (hd & g1 & Hhd & Hlenh & Hallh).
  destruct (binomial_draws_Ok 1 0.5 (Z.to_nat n) g1 Hone)
    as (ws & g' & Hws & Hlenw & Hallw).
  exists (map (fun hw => effect_beta np_log (fst hw) (snd hw)) (combine hd ws)),
    hd, ws, g'.
  split; [|split; [|split; [|split; [|split; [|split]]]]].
  - unfold generate_betas_effect_mod, np_random_binomial_2d.
    replace (n <? 0) with false by (symmetry; apply Z.ltb_ge; exact Hn).
    change (Z.to_nat 2) with 2%nat. cbn [Z.ltb Z.compare orb binomial_rows].
    unfold bind, ret. rewrite Hhd, Hws. reflexivity.
  - exact Hlenh.
  - exact Hlenw.
  - rewrite length_map, length_combine. lia.
  - eapply Forall_impl; [|exact Hallh]. cbn. intros; lia.
  - eapply Forall_impl; [|exact Hallw]. cbn. intros; lia.
  - intros i h w Hh Hw. rewrite nth_error_map.
    assert (Hhw : nth_error (combine hd ws) i = Some (h, w)).
    { clear - Hh Hw. revert ws i Hh Hw.
      induction hd as [|a hd IH]; intros ws i Hh Hw; [destruct i; discriminate|].
      destruct ws as [|c ws]; [destruct i; discriminate|].
      destruct i as [|i]; cbn in *; [congruence|]. now apply IH. }
    rewrite Hhw. cbn [option_map fst snd].
    now rewrite (effect_beta_values h w H15 H2).
Qed.

End EffectModificationProperties.

Lemma tape_binomial_in_support :
  forall m p g0, 0 <= m -> 0 <= fst (tape_binom m p g0) <= m.
Proof. exact scripted_binom_in_support. Qed.

Lemma log_series_is_positive_and_finite :
  float_pos_finite (log_series 1.5) /\ float_pos_finite (log_series 2).
Proof. repeat split; vm_compute; reflexivity. Qed.

Lemma effect_modification_betas_scripted :
  exists betas hd ws g',
    @generate_betas_effect_mod scripted tape_binom log_series 3
      ([1; 0; 1; 0; 5; 1], [])
    = Ok ((betas, [hd; ws], []), g') /\
    length hd = Z.to_nat 3 /\ length ws = Z.to_nat 3 /\
    length betas = Z.to_nat 3.
Proof.
  destruct (@effect_modification_betas scripted tape_binom log_series 3
              ([1; 0; 1; 0; 5; 1], []) tape_binomial_in_support
              (proj1 log_series_is_positive_and_finite)
              (proj2 log_series_is_positive_and_finite))
    as (betas & hd & ws & g' & Hrun & Hh & Hw & Hb & _); [lia|].
  exists betas, hd, ws, g'. repeat split; assumption.
Defined.
